(** * AO3 scraper: a shallow embedding of [src/ao3_scraper.py]

    The development follows the module top-down as the program runs it:
    the record extractor [_parse_work_blurb], the driver [search_fandom],
    the sinks [save_to_csv] / [save_to_json] and the script's [main].

    Modelling choices.
    - A Python [str] is a [string]; a character is a code point below 256,
      which is enough to show every branch of [str.isdigit] and [int].
    - A Python [dict] is an association list in insertion order, because
      [csv.DictWriter] is given [data[0].keys()] and the order is observable.
    - The parsed markup is seen through the queries the extractor makes
      ([find], [find_all], [get_text(strip=True)], [a['href']]).
    - Exceptions are values of [exn]; code that can raise returns an
      [outcome].  Printing, the network, the clock and the file system are
      threaded through a [World]. *)

From Stdlib Require Import ZArith List Ascii String Bool Lia DecimalString DecimalNat.
From stdpp Require Import base option gmap strings.
Import ListNotations.

Open Scope string_scope.
Open Scope Z_scope.

(** ** Exceptions and outcomes *)

Inductive exn : Type :=
| RequestException   (* requests: transport error, or HTTPError from raise_for_status *)
| KeyError           (* tag['href'] on a tag without that attribute *)
| IndexError         (* list[-1] on an empty list *)
| ValueError.        (* int() on a bad literal, time.sleep() on a negative length,
                        DictWriter on a row with keys outside fieldnames *)

Inductive outcome (A : Type) : Type :=
| Returned (a : A)
| Raised (e : exn).
Arguments Returned {A} a.
Arguments Raised {A} e.

Definition is_exception (e : exn) : bool := true.   (* every [exn] derives from Exception *)

Definition is_request_exception (e : exn) : bool :=
  match e with RequestException => true | _ => false end.

(** Pure code that may raise. *)
Definition bindE {A B} (m : outcome A) (k : A -> outcome B) : outcome B :=
  match m with
  | Returned a => k a
  | Raised e => Raised e
  end.

Notation "'let!' x ':=' m 'in' k" := (bindE m (fun x => k))
  (at level 10, x name, m at level 100, k at level 200).

(** ** Python strings *)

Module Str.

Definition is_ascii_digit (c : ascii) : bool :=
  let n := nat_of_ascii c in (48 <=? n)%nat && (n <=? 57)%nat.

(** [str.isdigit] on one character: the ten decimal digits and, below 256,
    the superscripts U+00B2, U+00B3 and U+00B9. *)
Definition char_isdigit (c : ascii) : bool :=
  let n := nat_of_ascii c in
  is_ascii_digit c || (n =? 178)%nat || (n =? 179)%nat || (n =? 185)%nat.

Fixpoint forall_chars (p : ascii -> bool) (s : string) : bool :=
  match s with
  | EmptyString => true
  | String c s' => p c && forall_chars p s'
  end.

(** [s.isdigit()]: at least one character and all of them digits. *)
Definition isdigit (s : string) : bool :=
  match s with
  | EmptyString => false
  | _ => forall_chars char_isdigit s
  end.

Definition digit_value (c : ascii) : Z := Z.of_nat (nat_of_ascii c) - 48.

Fixpoint int_from (acc : Z) (s : string) : outcome Z :=
  match s with
  | EmptyString => Returned acc
  | String c s' =>
      if is_ascii_digit c then int_from (10 * acc + digit_value c) s'
      else Raised ValueError
  end.

(** [int(s)] on the texts the extractor gives it (those that pass
    [isdigit]): the decimal value, or ValueError when a character is not a
    decimal digit. *)
Definition int (s : string) : outcome Z :=
  match s with
  | EmptyString => Raised ValueError
  | _ => int_from 0 s
  end.

(** [s.replace(c, '')] for a one-character [c]. *)
Fixpoint remove_char (c : ascii) (s : string) : string :=
  match s with
  | EmptyString => EmptyString
  | String c' s' =>
      if Ascii.eqb c' c then remove_char c s' else String c' (remove_char c s')
  end.

(** [s.split(c)] for a one-character [c]. *)
Fixpoint split (c : ascii) (s : string) : list string :=
  match s with
  | EmptyString => [EmptyString]
  | String c' s' =>
      if Ascii.eqb c' c then EmptyString :: split c s'
      else match split c s' with
           | piece :: pieces => String c' piece :: pieces
           | [] => [String c' EmptyString]
           end
  end.

(** [s[:n]]. *)
Fixpoint take (n : nat) (s : string) : string :=
  match n, s with
  | S n', String c s' => String c (take n' s')
  | _, _ => EmptyString
  end.

(** [sep.join(l)]. *)
Fixpoint join (sep : string) (l : list string) : string :=
  match l with
  | [] => EmptyString
  | [s] => s
  | s :: l' => s ++ sep ++ join sep l'
  end.

End Str.

(** [l[-1]]. *)
Definition getitem_last {A} (l : list A) : outcome A :=
  match rev l with
  | x :: _ => Returned x
  | [] => Raised IndexError
  end.

(** ** Dictionaries *)

Inductive value : Type :=
| VStr (s : string)
| VInt (n : Z).

Definition dict : Type := list (string * value).

(** [d[k] = v]: a present key keeps its place, a new key goes last. *)
Fixpoint dict_set (k : string) (v : value) (d : dict) : dict :=
  match d with
  | [] => [(k, v)]
  | (k', v') :: d' =>
      if String.eqb k' k then (k', v) :: d' else (k', v') :: dict_set k v d'
  end.

Fixpoint dict_get (k : string) (d : dict) : option value :=
  match d with
  | [] => None
  | (k', v') :: d' => if String.eqb k' k then Some v' else dict_get k d'
  end.

Definition dict_keys (d : dict) : list string := map fst d.

(** Truth value of the extractor's result: [None] and [{}] are false. *)
Definition truthy (r : option dict) : bool :=
  match r with
  | Some (_ :: _) => true
  | _ => false
  end.

(** ** The markup of one work blurb *)

(** The [<a>] inside the heading: its stripped text and its [href]. *)
Record Anchor : Type := {
  a_text : string;
  a_href : option string
}.

(** [dl.stats] with the stripped text of each [dd] the extractor asks for. *)
Record StatsElem : Type := {
  dd_language : option string;
  dd_words : option string;
  dd_chapters : option string;
  dd_kudos : option string;
  dd_bookmarks : option string;
  dd_hits : option string
}.

(** One [li.work.blurb.group]; a field is the answer of the matching
    [find] ([None] when nothing matches) or [find_all], already reduced to
    [get_text(strip=True)] where the extractor only reads the text. *)
Record WorkElement : Type := {
  h4_heading : option (option Anchor);   (* find('h4', 'heading'), then its find('a') *)
  a_author : option string;              (* find('a', rel='author') *)
  span_rating : option string;
  span_warnings : option string;
  span_category : option string;
  h5_fandoms : option string;
  li_freeforms : list string;            (* find_all('li', 'freeforms') *)
  li_relationships : list string;
  li_characters : list string;
  dl_stats : option StatsElem;
  blockquote_summary : option string
}.

(** [tag['href']]. *)
Definition getitem_href (a : Anchor) : outcome string :=
  match a_href a with
  | Some h => Returned h
  | None => Raised KeyError
  end.

(** ** The record extractor *)

Definition SUMMARY_MAX_LENGTH : nat := 200.

(** [elem.get_text(strip=True) if elem else default]. *)
Definition text_or (elem : option string) (default : string) : value :=
  match elem with
  | Some t => VStr t
  | None => VStr default
  end.

(** The block the source repeats for words, kudos, bookmarks and hits:
    [t = elem.get_text(strip=True).replace(',', '')], then
    [int(t) if t.isdigit() else 0], and [0] without the element. *)
Definition parse_count (elem : option string) : outcome value :=
  match elem with
  | Some t =>
      let text := Str.remove_char "," t in
      if Str.isdigit text
      then let! n := Str.int text in Returned (VInt n)
      else Returned (VInt 0)
  | None => Returned (VInt 0)
  end.

Definition join_first (n : nat) (elems : list string) : value :=
  VStr (Str.join ", " (firstn n elems)).

(** The [if stats:] block. *)
Definition parse_stats (stats : option StatsElem) (data : dict) : outcome dict :=
  match stats with
  | Some st =>
      let data := dict_set "language" (text_or (dd_language st) "English") data in
      let! words := parse_count (dd_words st) in
      let data := dict_set "words" words data in
      let data := dict_set "chapters" (text_or (dd_chapters st) "1/1") data in
      let! kudos := parse_count (dd_kudos st) in
      let data := dict_set "kudos" kudos data in
      let! bookmarks := parse_count (dd_bookmarks st) in
      let data := dict_set "bookmarks" bookmarks data in
      let! hits := parse_count (dd_hits st) in
      Returned (dict_set "hits" hits data)
  | None => Returned data
  end.

(** The body of the [try] in [_parse_work_blurb]. *)
Definition parse_body (work_element : WorkElement) (fandom : string)
  : outcome (option dict) :=
  let data := [("fandom_searched", VStr fandom)] in
  match h4_heading work_element with
  | Some (Some a) =>
      let data := dict_set "title" (VStr (a_text a)) data in
      let! href := getitem_href a in
      let! work_id := getitem_last (Str.split "/" href) in
      let data := dict_set "work_id" (VStr work_id) data in
      let data := dict_set "author" (text_or (a_author work_element) "Anonymous") data in
      let data := dict_set "rating" (text_or (span_rating work_element) "Not Rated") data in
      let data := dict_set "warnings"
                    (text_or (span_warnings work_element) "No Archive Warnings Apply") data in
      let data := dict_set "category" (text_or (span_category work_element) "N/A") data in
      let data := dict_set "fandoms" (text_or (h5_fandoms work_element) fandom) data in
      let data := dict_set "tags" (join_first 10 (li_freeforms work_element)) data in
      let data := dict_set "relationships"
                    (join_first 5 (li_relationships work_element)) data in
      let data := dict_set "characters" (join_first 10 (li_characters work_element)) data in
      let! data := parse_stats (dl_stats work_element) data in
      let data :=
        match blockquote_summary work_element with
        | Some t => dict_set "summary" (VStr (Str.take SUMMARY_MAX_LENGTH t)) data
        | None => dict_set "summary" (VStr "") data
        end in
      Returned (Some data)
  | _ => Returned None
  end.

(** ** The world: standard output, network, clock, file system *)

Inductive message : Type :=
| MsgScraping (fandom : string) (page : nat) (max_pages : Z)
| MsgErrorScraping (page : nat) (e : exn)
| MsgErrorParsing (e : exn)
| MsgNoData
| MsgSaved (n : nat) (filename : string)
| MsgScrapingFandom (fandom : string)
| MsgCollected (n : nat) (fandom : string)
| MsgTotal (n : nat)
| MsgComplete.

(** What a run does that can be observed from outside, in order.  A request
    carries the instant at which it is dispatched. *)
Inductive event : Type :=
| Print (m : message)
| Get (fandom : string) (page : nat) (instant : Z)
| Sleep (seconds : Z).

(** A file as the sinks leave it: for CSV the rows before quoting (the
    header row holds the field names), for JSON the dumped list. *)
Inductive cell : Type :=
| CName (k : string)
| CValue (v : value)
| CRestval.                       (* DictWriter's restval, the empty string *)

Inductive file : Type :=
| CsvFile (rows : list (list cell))
| JsonFile (records : list dict).

Record World : Type := {
  now : Z;                        (* the clock, in milliseconds *)
  trace : list event;
  files : gmap string file
}.

Definition M (A : Type) : Type := World -> outcome A * World.

Definition ret {A} (a : A) : M A := fun w => (Returned a, w).

Definition raise {A} (e : exn) : M A := fun w => (Raised e, w).

Definition bind {A B} (m : M A) (k : A -> M B) : M B :=
  fun w =>
    match m w with
    | (Returned a, w') => k a w'
    | (Raised e, w') => (Raised e, w')
    end.

Notation "'do' x '<-' m 'in' k" := (bind m (fun x => k))
  (at level 10, x name, m at level 100, k at level 200).

Definition emit (ev : event) : M unit :=
  fun w => (Returned tt, {| now := now w; trace := trace w ++ [ev]; files := files w |}).

Definition print (m : message) : M unit := emit (Print m).

(** What the server answers to one request. *)
Inductive response : Type :=
| Page (work_items : list WorkElement)   (* 2xx; find_all('li', 'work blurb group') *)
| Failure.                               (* no answer, or a status raise_for_status rejects *)

(** The network as the scraper meets it: the answer to the request for a
    page of a search, and the time that request takes. *)
Record Network : Type := {
  respond : string -> nat -> response;
  latency : string -> nat -> Z
}.

Record AO3Scraper : Type := {
  rate_limit : Z                   (* milliseconds; 5.0 seconds is 5000 *)
}.

Definition default_scraper : AO3Scraper := {| rate_limit := 5000 |}.

(** [session.get], [raise_for_status] and the two parser calls that turn
    the content into work items. *)
Definition session_get (net : Network) (fandom : string) (page : nat)
  : M (list WorkElement) :=
  fun w =>
    let w' := {| now := now w + latency net fandom page;
                 trace := trace w ++ [Get fandom page (now w)];
                 files := files w |} in
    match respond net fandom page with
    | Page work_items => (Returned work_items, w')
    | Failure => (Raised RequestException, w')
    end.

(** [time.sleep]. *)
Definition sleep (seconds : Z) : M unit :=
  fun w =>
    if seconds <? 0 then (Raised ValueError, w)
    else (Returned tt, {| now := now w + seconds;
                          trace := trace w ++ [Sleep seconds];
                          files := files w |}).

(** ** [_parse_work_blurb] *)

Definition _parse_work_blurb (work_element : WorkElement) (fandom : string)
  : M (option dict) :=
  match parse_body work_element fandom with
  | Returned r => ret r
  | Raised e =>
      if is_exception e
      then do _ <- print (MsgErrorParsing e) in ret None
      else raise e
  end.

(** ** [search_fandom] *)

(** [for work in work_items: ...; if work_data: works.append(work_data)]. *)
Fixpoint parse_items (work_items : list WorkElement) (fandom : string)
    (works : list dict) : M (list dict) :=
  match work_items with
  | [] => ret works
  | work :: rest =>
      do work_data <- _parse_work_blurb work fandom in
      match work_data with
      | Some d => if truthy work_data
                  then parse_items rest fandom (works ++ [d])
                  else parse_items rest fandom works
      | None => parse_items rest fandom works
      end
  end.

(** The body of the [try] in the page loop. *)
Definition scrape_page (self : AO3Scraper) (net : Network) (fandom : string)
    (page : nat) (works : list dict) : M (list dict) :=
  do work_items <- session_get net fandom page in
  do works <- parse_items work_items fandom works in
  do _ <- sleep (rate_limit self) in
  ret works.

(** The page loop.  [except requests.RequestException] prints and breaks;
    the request is the first statement of the [try], so [works] is then
    what it was when the iteration began.  Any other exception leaves the
    function. *)
Fixpoint page_loop (self : AO3Scraper) (net : Network) (fandom : string)
    (max_pages : Z) (pages : list nat) (works : list dict) : M (list dict) :=
  match pages with
  | [] => ret works
  | page :: rest =>
      fun w =>
        match (do _ <- print (MsgScraping fandom page max_pages) in
               scrape_page self net fandom page works) w with
        | (Returned works', w') => page_loop self net fandom max_pages rest works' w'
        | (Raised e, w') =>
            if is_request_exception e
            then (do _ <- print (MsgErrorScraping page e) in ret works) w'
            else (Raised e, w')
        end
  end.

(** [range(1, max_pages + 1)]. *)
Definition page_range (max_pages : Z) : list nat := seq 1 (Z.to_nat max_pages).

Definition search_fandom (self : AO3Scraper) (net : Network) (fandom : string)
    (max_pages : Z) : M (list dict) :=
  page_loop self net fandom max_pages (page_range max_pages) [].

(** ** The sinks *)

(** [DictWriter._dict_to_list] with the default [extrasaction='raise'] and
    [restval='']. *)
Definition dict_to_list (fieldnames : list string) (rowdict : dict)
  : outcome (list cell) :=
  if existsb (fun k => negb (existsb (String.eqb k) fieldnames)) (dict_keys rowdict)
  then Raised ValueError
  else Returned (map (fun k => match dict_get k rowdict with
                               | Some v => CValue v
                               | None => CRestval
                               end) fieldnames).

(** [writer.writerows]: rows go out one by one, so the rows before a
    rejected one are already written when the exception leaves. *)
Fixpoint writerows (fieldnames : list string) (rowdicts : list dict)
    (rows : list (list cell)) : list (list cell) * outcome unit :=
  match rowdicts with
  | [] => (rows, Returned tt)
  | rowdict :: rest =>
      match dict_to_list fieldnames rowdict with
      | Returned row => writerows fieldnames rest (rows ++ [row])
      | Raised e => (rows, Raised e)
      end
  end.

(** The effect of a [with open(filename, 'w')] block that leaves [f]
    behind; the directory is taken to exist, so [open] itself succeeds. *)
Definition write_file (filename : string) (f : file) : M unit :=
  fun w => (Returned tt, {| now := now w; trace := trace w;
                            files := <[filename := f]> (files w) |}).

Definition save_to_csv (self : AO3Scraper) (data : list dict) (filename : string)
  : M unit :=
  match data with
  | [] => print MsgNoData
  | first :: _ =>
      let keys := dict_keys first in
      let (rows, r) := writerows keys data [map CName keys] in
      do _ <- write_file filename (CsvFile rows) in
      match r with
      | Returned _ => print (MsgSaved (List.length data) filename)
      | Raised e => raise e
      end
  end.

Definition save_to_json (self : AO3Scraper) (data : list dict) (filename : string)
  : M unit :=
  do _ <- write_file filename (JsonFile data) in
  print (MsgSaved (List.length data) filename).

(** ** [main] *)

Definition fandoms : list string :=
  ["My Chemical Romance"; "Fall Out Boy"; "Sherlock"; "Star Trek"].

(** [for fandom in fandoms: ...; all_works.extend(works)]. *)
Fixpoint scrape_fandoms (scraper : AO3Scraper) (net : Network)
    (fandoms : list string) (all_works : list dict) : M (list dict) :=
  match fandoms with
  | [] => ret all_works
  | fandom :: rest =>
      do _ <- print (MsgScrapingFandom fandom) in
      do works <- search_fandom scraper net fandom 3 in
      do _ <- print (MsgCollected (List.length works) fandom) in
      scrape_fandoms scraper net rest (all_works ++ works)
  end.

(** The script's run; the banner lines it prints between the steps are
    left out. *)
Definition main (net : Network) : M unit :=
  let scraper := {| rate_limit := 5000 |} in
  do all_works <- scrape_fandoms scraper net fandoms [] in
  do _ <- print (MsgTotal (List.length all_works)) in
  do _ <- save_to_csv scraper all_works "data/ao3_fanfictions.csv" in
  do _ <- save_to_json scraper all_works "data/ao3_fanfictions.json" in
  print MsgComplete.

(** ** Reading a run *)

Definition world0 : World := {| now := 0; trace := []; files := ∅ |}.

(** The requests of a trace, in order. *)
Fixpoint requests (t : list event) : list (string * nat) :=
  match t with
  | [] => []
  | Get fandom page _ :: t' => (fandom, page) :: requests t'
  | _ :: t' => requests t'
  end.

(** The instants at which the requests of a trace were dispatched. *)
Fixpoint dispatch_instants (t : list event) : list Z :=
  match t with
  | [] => []
  | Get _ _ instant :: t' => instant :: dispatch_instants t'
  | _ :: t' => dispatch_instants t'
  end.

(** Every request after the first is dispatched at least [d] after the one
    before it. *)
Fixpoint spaced (d : Z) (instants : list Z) : bool :=
  match instants with
  | t1 :: ((t2 :: _) as rest) => (t1 + d <=? t2) && spaced d rest
  | _ => true
  end.

(** The field set, in the order the extractor fills it. *)
Definition FIELDS : list string :=
  ["fandom_searched"; "title"; "work_id"; "author"; "rating"; "warnings";
   "category"; "fandoms"; "tags"; "relationships"; "characters"; "language";
   "words"; "chapters"; "kudos"; "bookmarks"; "hits"; "summary"].

(** Sample markup. *)
Definition full_stats : StatsElem :=
  {| dd_language := Some "English"; dd_words := Some "1,234";
     dd_chapters := Some "3/?"; dd_kudos := Some "56";
     dd_bookmarks := None; dd_hits := Some "n/a" |}.

Definition work_with (heading : option (option Anchor)) (stats : option StatsElem)
  : WorkElement :=
  {| h4_heading := heading;
     a_author := None; span_rating := None; span_warnings := None;
     span_category := None; h5_fandoms := None;
     li_freeforms := ["Fluff"; "Angst"]; li_relationships := [];
     li_characters := ["John Watson"];
     dl_stats := stats;
     blockquote_summary := Some "An alternate take" |}.

Definition study_link : Anchor := {| a_text := "A Study"; a_href := Some "/works/100001" |}.

Definition sample_work : WorkElement := work_with (Some (Some study_link)) (Some full_stats).

(** A blurb whose heading link has no text and whose href ends in a slash. *)
Definition blank_link_work : WorkElement :=
  work_with (Some (Some {| a_text := ""; a_href := Some "/works/" |})) (Some full_stats).

(** A blurb without the [dl.stats] block. *)
Definition no_stats_work : WorkElement := work_with (Some (Some study_link)) None.

(** A blurb without a heading, one whose heading has no link, one whose
    link has no href, one whose word count is a superscript two. *)
Definition no_heading_work : WorkElement := work_with None (Some full_stats).
Definition no_link_work : WorkElement := work_with (Some None) (Some full_stats).
Definition no_href_work : WorkElement :=
  work_with (Some (Some {| a_text := "A Study"; a_href := None |})) (Some full_stats).
Definition superscript_work : WorkElement :=
  work_with (Some (Some study_link))
    (Some {| dd_language := None; dd_words := Some (String (ascii_of_nat 178) "");
             dd_chapters := None; dd_kudos := None; dd_bookmarks := None;
             dd_hits := None |}).

Definition record_of (w : WorkElement) (fandom : string) : dict :=
  match parse_body w fandom with
  | Returned (Some d) => d
  | _ => []
  end.

Definition sample_record : dict := Eval vm_compute in record_of sample_work "Sherlock".
Definition no_stats_record : dict := Eval vm_compute in record_of no_stats_work "Sherlock".

(** The first eleven entries of a record, the six of the stats block and
    the summary, as the extractor lays them out. *)
Definition head_fields (w : WorkElement) (fandom title work_id : string) : dict :=
  [("fandom_searched", VStr fandom); ("title", VStr title); ("work_id", VStr work_id);
   ("author", text_or (a_author w) "Anonymous");
   ("rating", text_or (span_rating w) "Not Rated");
   ("warnings", text_or (span_warnings w) "No Archive Warnings Apply");
   ("category", text_or (span_category w) "N/A");
   ("fandoms", text_or (h5_fandoms w) fandom);
   ("tags", join_first 10 (li_freeforms w));
   ("relationships", join_first 5 (li_relationships w));
   ("characters", join_first 10 (li_characters w))].

Definition stats_fields (st : StatsElem) (words kudos bookmarks hits : value) : dict :=
  [("language", text_or (dd_language st) "English"); ("words", words);
   ("chapters", text_or (dd_chapters st) "1/1"); ("kudos", kudos);
   ("bookmarks", bookmarks); ("hits", hits)].

Definition summary_value (w : WorkElement) : value :=
  match blockquote_summary w with
  | Some t => VStr (Str.take SUMMARY_MAX_LENGTH t)
  | None => VStr ""
  end.

(** The records the extractor can return for an item. *)
Inductive extracted (w : WorkElement) (fandom : string) : dict -> Prop :=
| extracted_without_stats a href work_id :
    h4_heading w = Some (Some a) ->
    a_href a = Some href ->
    getitem_last (Str.split "/" href) = Returned work_id ->
    dl_stats w = None ->
    extracted w fandom
      (head_fields w fandom (a_text a) work_id ++ [("summary", summary_value w)])%list
| extracted_with_stats a href work_id st words kudos bookmarks hits :
    h4_heading w = Some (Some a) ->
    a_href a = Some href ->
    getitem_last (Str.split "/" href) = Returned work_id ->
    dl_stats w = Some st ->
    parse_count (dd_words st) = Returned words ->
    parse_count (dd_kudos st) = Returned kudos ->
    parse_count (dd_bookmarks st) = Returned bookmarks ->
    parse_count (dd_hits st) = Returned hits ->
    extracted w fandom
      (head_fields w fandom (a_text a) work_id
         ++ stats_fields st words kudos bookmarks hits
         ++ [("summary", summary_value w)])%list.

(** ** Notions used in the statements *)

Definition no_char (c : ascii) (s : string) : bool :=
  Str.forall_chars (fun c' => negb (Ascii.eqb c' c)) s.

(** What one item adds to the accumulator. *)
Definition kept (r : outcome (option dict)) : list dict :=
  match r with
  | Returned (Some d) => if truthy (Some d) then [d] else []
  | _ => []
  end.

(** The records of a page: those of its items, in order. *)
Definition page_records (fandom : string) (work_items : list WorkElement) : list dict :=
  flat_map (fun w => kept (parse_body w fandom)) work_items.

(** Two worlds that differ only by what was printed. *)
Definition same_but_prints (w w' : World) : Prop :=
  now w' = now w /\ files w' = files w
  /\ requests (trace w') = requests (trace w)
  /\ dispatch_instants (trace w') = dispatch_instants (trace w).

Definition page_items (net : Network) (fandom : string) (page : nat) : list WorkElement :=
  match respond net fandom page with
  | Page work_items => work_items
  | Failure => []
  end.

Definition succeeds (net : Network) (fandom : string) (page : nat) : bool :=
  match respond net fandom page with
  | Page _ => true
  | Failure => false
  end.

(** The records of a list of pages, page after page. *)
Definition pages_records (net : Network) (fandom : string) (pages : list nat) : list dict :=
  flat_map (fun page => page_records fandom (page_items net fandom page)) pages.

(** What one request does to the world, prints aside: it is dispatched at
    the current instant, and the clock moves by [elapsed]. *)
Definition after_request (fandom : string) (page : nat) (elapsed : Z) (w w' : World)
  : Prop :=
  now w' = now w + elapsed
  /\ files w' = files w
  /\ requests (trace w') = (requests (trace w) ++ [(fandom, page)])%list
  /\ dispatch_instants (trace w') = (dispatch_instants (trace w) ++ [now w])%list.

(** The pages fetched with success before the first failure, and the
    pages requested: the former and the failing page, if there is one. *)
Fixpoint ok_prefix (net : Network) (fandom : string) (pages : list nat) : list nat :=
  match pages with
  | [] => []
  | page :: rest =>
      if succeeds net fandom page then page :: ok_prefix net fandom rest else []
  end.

Fixpoint attempted (net : Network) (fandom : string) (pages : list nat) : list nat :=
  match pages with
  | [] => []
  | page :: rest =>
      if succeeds net fandom page then page :: attempted net fandom rest else [page]
  end.

(** The driver scenario: pages 1 and 2 answer, page 3 does not. *)
Definition two_pages_then_failure : Network :=
  {| respond := fun _ page =>
                  match page with
                  | 1%nat => Page [sample_work; no_heading_work]
                  | 2%nat => Page [no_href_work; sample_work]
                  | _ => Failure
                  end;
     latency := fun _ _ => 120 |}.

Definition scenario_run : outcome (list dict) * World :=
  search_fandom default_scraper two_pages_then_failure "Sherlock" 3 world0.

Definition scenario_records : list dict :=
  Eval vm_compute in match fst scenario_run with
                     | Returned recs => recs
                     | Raised _ => []
                     end.

(** The first fandom of [main] is down, the others answer. *)
Definition first_fandom_down : Network :=
  {| respond := fun fandom _ =>
                  if String.eqb fandom "My Chemical Romance" then Failure
                  else Page [sample_work];
     latency := fun _ _ => 120 |}.

(** The row of a record: its values, in the order of its fields. *)
Definition row_of (d : dict) : list cell := map (fun kv => CValue (snd kv)) d.

(** ** Further notions *)





(** The field set of a record extracted from an item without stats block. *)
Definition FIELDS_WITHOUT_STATS : list string :=
  ["fandom_searched"; "title"; "work_id"; "author"; "rating"; "warnings";
   "category"; "fandoms"; "tags"; "relationships"; "characters"; "summary"].



(** What one [search_fandom] call of [main] collects for a fandom, and the
    requests it makes. *)
Definition fandom_records (net : Network) (fandom : string) : list dict :=
  pages_records net fandom (ok_prefix net fandom (page_range 3)).

Definition fandom_requests (net : Network) (fandom : string) : list (string * nat) :=
  map (pair fandom) (attempted net fandom (page_range 3)).

(** A row whose keys are all among the field names, and what DictWriter
    writes for it: the value of each field, or the restval where the row
    has no such key. *)
Definition fits (fieldnames : list string) (d : dict) : bool :=
  forallb (fun k => existsb (String.eqb k) fieldnames) (dict_keys d).

Definition padded_row (fieldnames : list string) (d : dict) : list cell :=
  map (fun k => match dict_get k d with
                | Some v => CValue v
                | None => CRestval
                end) fieldnames.

(** What [main] collects, and the two files it writes. *)
Definition collected (net : Network) : list dict :=
  flat_map (fandom_records net) fandoms.

Definition csv_path : string := "data/ao3_fanfictions.csv".
Definition json_path : string := "data/ao3_fanfictions.json".


(** Nothing answers. *)
Definition no_answer : Network :=
  {| respond := fun _ _ => Failure; latency := fun _ _ => 120 |}.

(** An analyzer that always ends well. *)
Definition analysis_succeeds (data : file) : outcome unit := Returned tt.

(** ** [analyzer.py] and [main.py]: the stages around the scraper

    The analyzer works on the CSV file through pandas and matplotlib; it is
    taken as a parameter [analyze], from the content of the file to how the
    analysis ends.  What the two scripts decide themselves is modelled:
    which stage runs, and on which file.  Their banner lines and the
    directories they create are left out; [choice] is the line read,
    stripped. *)

Inductive report : Type :=
| DataFileNotFound (data_file : string)   (* "Error: Data file ... not found." *)
| AnalysisStarted (data : file)           (* FanfictionAnalyzer(data_file).analyze_all() *)
| PipelineComplete.                       (* "PIPELINE COMPLETE!" *)

(** [x in l] for strings. *)
Definition str_in (x : string) (l : list string) : bool := existsb (String.eqb x) l.

(** The analysis stage, the body of [analyzer.main] and of the second
    [if] of [main.py]: without the data file it prints the error and
    returns, with it the analyzer runs.  [None] stands for that early
    [return]. *)
Definition analysis_stage (analyze : file -> outcome unit) (world : World)
  : outcome (option unit) * list report :=
  match files world !! csv_path with
  | None => (Returned None, [DataFileNotFound csv_path])
  | Some data =>
      match analyze data with
      | Returned _ => (Returned (Some tt), [AnalysisStarted data])
      | Raised e => (Raised e, [AnalysisStarted data])
      end
  end.

Module MainPy.

(** [main] of [main.py]. *)
Definition main (choice : string) (net : Network) (analyze : file -> outcome unit)
    (world : World) : outcome unit * World * list report :=
  match (if str_in choice ["1"; "3"] then main net world else (Returned tt, world)) with
  | (Raised e, world1) => (Raised e, world1, [])
  | (Returned _, world1) =>
      if str_in choice ["2"; "3"]
      then match analysis_stage analyze world1 with
           | (Returned (Some _), reports) =>
               (Returned tt, world1, (reports ++ [PipelineComplete])%list)
           | (Returned None, reports) => (Returned tt, world1, reports)
           | (Raised e, reports) => (Raised e, world1, reports)
           end
      else (Returned tt, world1, [PipelineComplete])
  end.

End MainPy.

(** * Properties *)

(** ** The extractor *)

Lemma parse_body_extracted w fandom d :
  parse_body w fandom = Returned (Some d) -> extracted w fandom d.
Proof.
  unfold parse_body.
  destruct (h4_heading w) as [[a|]|] eqn:Hh; try discriminate.
  unfold getitem_href.
  destruct (a_href a) as [href|] eqn:Hhref; try discriminate.
  cbn [bindE].
  destruct (getitem_last (Str.split "/" href)) as [work_id|] eqn:Hid; try discriminate.
  cbn [bindE].
  destruct (dl_stats w) as [st|] eqn:Hst.
  - unfold parse_stats.
    destruct (parse_count (dd_words st)) as [words|] eqn:Hw; try discriminate.
    cbn [bindE].
    destruct (parse_count (dd_kudos st)) as [kudos|] eqn:Hk; try discriminate.
    cbn [bindE].
    destruct (parse_count (dd_bookmarks st)) as [bookmarks|] eqn:Hb; try discriminate.
    cbn [bindE].
    destruct (parse_count (dd_hits st)) as [hits|] eqn:Hhits; try discriminate.
    cbn [bindE].
    intros H.
    assert (Hd : d = (head_fields w fandom (a_text a) work_id
                        ++ stats_fields st words kudos bookmarks hits
                        ++ [("summary", summary_value w)])%list).
    { unfold summary_value. destruct (blockquote_summary w);
        injection H as <-; reflexivity. }
    subst d. eapply extracted_with_stats; eassumption.
  - cbn [parse_stats bindE]. intros H.
    assert (Hd : d = (head_fields w fandom (a_text a) work_id
                        ++ [("summary", summary_value w)])%list).
    { unfold summary_value. destruct (blockquote_summary w);
        injection H as <-; reflexivity. }
    subst d. eapply extracted_without_stats; eassumption.
Qed.

Lemma parse_blurb_returned w fandom r world :
  parse_body w fandom = Returned r ->
  _parse_work_blurb w fandom world = (Returned r, world).
Proof. intros H. unfold _parse_work_blurb. rewrite H. reflexivity. Qed.

Lemma parse_blurb_raised w fandom e world :
  parse_body w fandom = Raised e ->
  _parse_work_blurb w fandom world
  = (Returned None,
     {| now := now world; trace := trace world ++ [Print (MsgErrorParsing e)];
        files := files world |}).
Proof. intros H. unfold _parse_work_blurb. rewrite H. reflexivity. Qed.

Lemma parse_blurb_Some w fandom world d :
  fst (_parse_work_blurb w fandom world) = Returned (Some d) ->
  extracted w fandom d.
Proof.
  destruct (parse_body w fandom) as [r|e] eqn:H.
  - rewrite (parse_blurb_returned _ _ _ _ H). cbn. intros [= ->].
    now apply parse_body_extracted.
  - rewrite (parse_blurb_raised _ _ _ _ H). cbn. discriminate.
Qed.

Lemma requests_app t1 t2 : requests (t1 ++ t2) = (requests t1 ++ requests t2)%list.
Proof. induction t1 as [|[] t1 IH]; cbn; rewrite ?IH; reflexivity. Qed.

Lemma dispatch_instants_app t1 t2 :
  dispatch_instants (t1 ++ t2) = (dispatch_instants t1 ++ dispatch_instants t2)%list.
Proof. induction t1 as [|[] t1 IH]; cbn; rewrite ?IH; reflexivity. Qed.

Lemma parse_blurb_returns w fandom world :
  exists r world', _parse_work_blurb w fandom world = (Returned r, world')
                   /\ now world' = now world /\ files world' = files world
                   /\ requests (trace world') = requests (trace world)
                   /\ dispatch_instants (trace world') = dispatch_instants (trace world).
Proof.
  destruct (parse_body w fandom) as [r|e] eqn:H.
  - exists r, world. rewrite (parse_blurb_returned _ _ _ _ H). auto.
  - eexists None, _. rewrite (parse_blurb_raised _ _ _ _ H).
    split; [reflexivity|]. cbn.
    rewrite requests_app, dispatch_instants_app. cbn. rewrite !app_nil_r. auto.
Qed.

(** *** Strings *)

(** The last piece of a split holds no separator and ends the text: it is
    the whole text, or what follows the last separator. *)
Lemma split_last_piece c s :
  exists pieces x,
    Str.split c s = (pieces ++ [x])%list
    /\ no_char c x = true
    /\ ((pieces = [] /\ s = x) \/ (pieces <> [] /\ exists pre, s = pre ++ String c x)).
Proof.
  induction s as [|c' s IH].
  - exists [], "". cbn. auto.
  - destruct IH as (pieces & x & Hsplit & Hx & Hs). cbn [Str.split].
    destruct (Ascii.eqb c' c) eqn:Hc.
    + apply Ascii.eqb_eq in Hc. subst c'.
      exists ("" :: pieces)%list, x. rewrite Hsplit. split; [reflexivity|].
      split; [assumption|]. right. split; [discriminate|].
      destruct Hs as [[_ ->]|[_ [pre ->]]].
      * exists "". reflexivity.
      * exists (String c pre). reflexivity.
    + rewrite Hsplit. destruct Hs as [[-> ->]|[Hne [pre ->]]].
      * exists [], (String c' x). cbn. unfold no_char in *. cbn. rewrite Hc. cbn.
        auto.
      * destruct pieces as [|p ps]; [congruence|].
        exists (String c' p :: ps)%list, x. cbn. split; [reflexivity|].
        split; [assumption|]. right. split; [discriminate|].
        exists (String c' pre). reflexivity.
Qed.

Lemma getitem_last_snoc {A} (l : list A) x : getitem_last (l ++ [x]) = Returned x.
Proof. unfold getitem_last. rewrite rev_app_distr. reflexivity. Qed.


Lemma take_length n s : (String.length (Str.take n s) <= n)%nat.
Proof.
  revert s. induction n as [|n IH]; intros [|c s]; cbn; try lia.
  specialize (IH s). lia.
Qed.

Lemma take_prefix n s : exists rest, s = Str.take n s ++ rest.
Proof.
  revert s. induction n as [|n IH]; intros [|c s]; cbn.
  - exists "". reflexivity.
  - eexists. reflexivity.
  - exists "". reflexivity.
  - destruct (IH s) as [rest Hrest]. exists rest.
    change (String c s = String c (Str.take n s ++ rest)). f_equal. exact Hrest.
Qed.

(** *** Counts *)

Lemma digit_value_nonneg c : Str.is_ascii_digit c = true -> 0 <= Str.digit_value c <= 9.
Proof.
  unfold Str.is_ascii_digit, Str.digit_value. intros H.
  apply andb_true_iff in H as [H1 H2].
  apply Nat.leb_le in H1, H2. lia.
Qed.

Lemma int_from_nonneg s : forall acc n,
  0 <= acc -> Str.int_from acc s = Returned n -> 0 <= n.
Proof.
  induction s as [|c s IH]; intros acc n Hacc; cbn.
  - intros [= <-]. assumption.
  - destruct (Str.is_ascii_digit c) eqn:Hc; [|discriminate].
    apply IH. pose proof (digit_value_nonneg c Hc). lia.
Qed.

(** A count that is returned is an integer and is not negative. *)
Lemma parse_count_nonneg elem v :
  parse_count elem = Returned v -> exists n, v = VInt n /\ 0 <= n.
Proof.
  unfold parse_count. destruct elem as [t|].
  - destruct (Str.isdigit (Str.remove_char "," t)).
    + destruct (Str.int (Str.remove_char "," t)) as [n|] eqn:Hint; cbn; [|discriminate].
      intros [= <-]. exists n. split; [reflexivity|].
      unfold Str.int in Hint. destruct (Str.remove_char "," t); [discriminate|].
      eapply int_from_nonneg; [|eassumption]. lia.
    + intros [= <-]. exists 0. split; [reflexivity|lia].
  - intros [= <-]. exists 0. split; [reflexivity|lia].
Qed.

(** The value [int] returns is the positional one: a further digit at the
    end multiplies by ten and adds the digit. *)
Lemma int_from_snoc s c : forall acc n,
  Str.int_from acc s = Returned n ->
  Str.is_ascii_digit c = true ->
  Str.int_from acc (s ++ String c "") = Returned (10 * n + Str.digit_value c).
Proof.
  induction s as [|c' s IH]; intros acc n.
  - intros [= <-] Hc. change ("" ++ String c "") with (String c "").
    cbn [Str.int_from]. rewrite Hc. reflexivity.
  - change (String c' s ++ String c "") with (String c' (s ++ String c "")).
    cbn [Str.int_from].
    destruct (Str.is_ascii_digit c'); [|discriminate]. apply IH.
Qed.

(** No separator is left after [replace(',', '')], and a text without
    separators is not changed. *)
Lemma remove_char_clean c s : no_char c (Str.remove_char c s) = true.
Proof.
  induction s as [|c' s IH]; cbn; [reflexivity|].
  destruct (Ascii.eqb c' c) eqn:Hc; [exact IH|].
  unfold no_char in *. cbn. rewrite Hc, IH. reflexivity.
Qed.

Lemma remove_char_id c s : no_char c s = true -> Str.remove_char c s = s.
Proof.
  unfold no_char. induction s as [|c' s IH]; cbn; [reflexivity|].
  destruct (Ascii.eqb c' c); cbn; [discriminate|]. intros H. rewrite IH; auto.
Qed.

Example parse_count_grouped : parse_count (Some "1,234") = Returned (VInt 1234).
Proof. reflexivity. Qed.

Example parse_count_missing : parse_count None = Returned (VInt 0).
Proof. reflexivity. Qed.

Example parse_count_not_numeric : parse_count (Some "n/a") = Returned (VInt 0).
Proof. reflexivity. Qed.

Lemma parse_count_not_digits t :
  Str.isdigit (Str.remove_char "," t) = false -> parse_count (Some t) = Returned (VInt 0).
Proof. intros H. unfold parse_count. rewrite H. reflexivity. Qed.

(** A superscript digit passes [isdigit] and is refused by [int]. *)
Example parse_count_superscript : parse_count (Some (String (ascii_of_nat 178) "")) = Raised ValueError.
Proof. reflexivity. Qed.

(** *** Title and work id *)

(** C3, as stated, fails: a heading link without text whose href ends in a
    slash gives a record whose title and work_id are both empty. *)
Lemma blank_title_and_work_id_emitted :
  exists d,
    _parse_work_blurb blank_link_work "Sherlock" world0 = (Returned (Some d), world0)
    /\ dict_get "title" d = Some (VStr "")
    /\ dict_get "work_id" d = Some (VStr "").
Proof. eexists. split; [reflexivity|]. split; reflexivity. Qed.

(** C3, amended: every record the extractor emits has a title and a
    work_id, both strings.  The title is the stripped text of the heading
    link; the work_id is what follows the last slash of the link's href (the
    whole href when it has no slash).  So the title is non-empty whenever
    the link has text, and the work_id is non-empty whenever the href is
    non-empty and does not end in a slash. *)
Theorem emitted_title_and_work_id w fandom world d :
  fst (_parse_work_blurb w fandom world) = Returned (Some d) ->
  exists a href work_id,
    h4_heading w = Some (Some a) /\ a_href a = Some href
    /\ dict_get "title" d = Some (VStr (a_text a))
    /\ dict_get "work_id" d = Some (VStr work_id)
    /\ no_char "/" work_id = true
    /\ (href = work_id \/ exists pre, href = pre ++ String "/" work_id)
    /\ (work_id = "" -> href = "" \/ exists pre, href = pre ++ "/").
Proof.
  intros H. apply parse_blurb_Some in H.
  assert (Hid : forall href work_id,
             getitem_last (Str.split "/" href) = Returned work_id ->
             no_char "/" work_id = true
             /\ (href = work_id \/ exists pre, href = pre ++ String "/" work_id)
             /\ (work_id = "" -> href = "" \/ exists pre, href = pre ++ "/")).
  { intros href work_id Hlast.
    destruct (split_last_piece "/" href) as (pieces & x & Hsplit & Hx & Hs).
    rewrite Hsplit, getitem_last_snoc in Hlast. injection Hlast as <-.
    split; [assumption|].
    destruct Hs as [[_ ->]|[_ [pre ->]]].
    - split; [left; reflexivity|]. intros ->. left. reflexivity.
    - split; [right; exists pre; reflexivity|]. intros ->. right.
      exists pre. reflexivity. }
  destruct H as [a href work_id Hh Hhref Hlast _
                |a href work_id st words kudos bookmarks hits Hh Hhref Hlast _ _ _ _ _];
    exists a, href, work_id;
    (split; [assumption|]); (split; [assumption|]);
    (split; [reflexivity|]); (split; [reflexivity|]); apply Hid; assumption.
Qed.

Lemma emitted_title_and_work_id_witness :
  fst (_parse_work_blurb sample_work "Sherlock" world0) = Returned (Some sample_record)
  /\ exists a href work_id,
      h4_heading sample_work = Some (Some a) /\ a_href a = Some href
      /\ dict_get "title" sample_record = Some (VStr (a_text a))
      /\ dict_get "work_id" sample_record = Some (VStr work_id)
      /\ no_char "/" work_id = true
      /\ (href = work_id \/ exists pre, href = pre ++ String "/" work_id)
      /\ (work_id = "" -> href = "" \/ exists pre, href = pre ++ "/").
Proof.
  split; [reflexivity|].
  apply (emitted_title_and_work_id sample_work "Sherlock" world0 sample_record).
  reflexivity.
Defined.

(** *** Records of items with a stats block *)

(** With a [dl.stats] block the record has the full field set in order,
    its four counts are integers that are not negative, and language and
    chapters are the text found or their defaults. *)
Lemma extracted_with_stats_fields w fandom d st :
  extracted w fandom d ->
  dl_stats w = Some st ->
  dict_keys d = FIELDS
  /\ (exists n, dict_get "words" d = Some (VInt n) /\ 0 <= n)
  /\ (exists n, dict_get "kudos" d = Some (VInt n) /\ 0 <= n)
  /\ (exists n, dict_get "bookmarks" d = Some (VInt n) /\ 0 <= n)
  /\ (exists n, dict_get "hits" d = Some (VInt n) /\ 0 <= n)
  /\ dict_get "language" d = Some (text_or (dd_language st) "English")
  /\ dict_get "chapters" d = Some (text_or (dd_chapters st) "1/1").
Proof.
  intros H Hst.
  destruct H as [a href work_id _ _ _ Hnone
                |a href work_id st' words kudos bookmarks hits _ _ _ Hst' Hw Hk Hb Hh];
    [congruence|].
  assert (st' = st) as -> by congruence.
  apply parse_count_nonneg in Hw as (nw & -> & ?), Hk as (nk & -> & ?),
        Hb as (nb & -> & ?), Hh as (nh & -> & ?).
  split; [reflexivity|].
  split; [exists nw; split; [reflexivity|assumption]|].
  split; [exists nk; split; [reflexivity|assumption]|].
  split; [exists nb; split; [reflexivity|assumption]|].
  split; [exists nh; split; [reflexivity|assumption]|].
  split; reflexivity.
Qed.

(** The author is in every record, the link text or "Anonymous". *)
Lemma extracted_author w fandom d :
  extracted w fandom d ->
  dict_get "author" d = Some (text_or (a_author w) "Anonymous").
Proof. intros []; reflexivity. Qed.

(** *** Items without the stats block *)

(** C4 fails on an item without the [dl.stats] block: the record is emitted
    and holds none of words, kudos, bookmarks, hits.  (With the block the
    claim holds, see [extracted_with_stats_fields], [parse_count_grouped],
    [parse_count_missing] and [parse_count_not_digits].) *)
Theorem counts_absent_without_stats :
  _parse_work_blurb no_stats_work "Sherlock" world0
  = (Returned (Some no_stats_record), world0)
  /\ dict_get "words" no_stats_record = None
  /\ dict_get "kudos" no_stats_record = None
  /\ dict_get "bookmarks" no_stats_record = None
  /\ dict_get "hits" no_stats_record = None.
Proof. repeat split. Qed.

(** C6 fails on an item without the [dl.stats] block: the record is emitted
    with the author's default, and with neither language nor chapters.
    (With the block both defaults are applied, see
    [extracted_with_stats_fields].) *)
Theorem language_and_chapters_absent_without_stats :
  _parse_work_blurb no_stats_work "Sherlock" world0
  = (Returned (Some no_stats_record), world0)
  /\ dict_get "author" no_stats_record = Some (VStr "Anonymous")
  /\ dict_get "language" no_stats_record = None
  /\ dict_get "chapters" no_stats_record = None.
Proof. repeat split. Qed.

(** *** Caps *)

(** C5: in every emitted record tags, relationships and characters are the
    first 10, 5 and 10 texts found, in the order found, joined by ", ", and
    the summary is the first 200 characters of the text found (empty when
    there is no summary). *)
Theorem list_fields_capped w fandom world d :
  fst (_parse_work_blurb w fandom world) = Returned (Some d) ->
  exists tags relationships characters summary,
    dict_get "tags" d = Some (VStr (Str.join ", " tags))
    /\ tags = firstn 10 (li_freeforms w) /\ (List.length tags <= 10)%nat
    /\ dict_get "relationships" d = Some (VStr (Str.join ", " relationships))
    /\ relationships = firstn 5 (li_relationships w)
    /\ (List.length relationships <= 5)%nat
    /\ dict_get "characters" d = Some (VStr (Str.join ", " characters))
    /\ characters = firstn 10 (li_characters w) /\ (List.length characters <= 10)%nat
    /\ dict_get "summary" d = Some (VStr summary)
    /\ summary = match blockquote_summary w with
                 | Some t => Str.take 200 t
                 | None => ""
                 end
    /\ (String.length summary <= 200)%nat.
Proof.
  intros H. apply parse_blurb_Some in H.
  exists (firstn 10 (li_freeforms w)), (firstn 5 (li_relationships w)),
         (firstn 10 (li_characters w)),
         (match blockquote_summary w with Some t => Str.take 200 t | None => "" end).
  assert (Hsum : (String.length
                    match blockquote_summary w with
                    | Some t => Str.take 200 t
                    | None => ""
                    end <= 200)%nat).
  { destruct (blockquote_summary w); [apply take_length|cbn; lia]. }
  assert (Hval : summary_value w
                 = VStr match blockquote_summary w with
                        | Some t => Str.take 200 t
                        | None => ""
                        end).
  { unfold summary_value. destruct (blockquote_summary w); reflexivity. }
  destruct H;
    repeat match goal with
           | |- _ /\ _ => split
           | |- (List.length (firstn _ _) <= _)%nat => apply firstn_le_length
           | |- dict_get "summary" _ = _ => cbn; rewrite Hval; reflexivity
           | |- _ => first [reflexivity | assumption]
           end.
Qed.

Lemma list_fields_capped_witness :
  fst (_parse_work_blurb sample_work "Sherlock" world0) = Returned (Some sample_record)
  /\ exists tags relationships characters summary,
      dict_get "tags" sample_record = Some (VStr (Str.join ", " tags))
      /\ tags = firstn 10 (li_freeforms sample_work) /\ (List.length tags <= 10)%nat
      /\ dict_get "relationships" sample_record = Some (VStr (Str.join ", " relationships))
      /\ relationships = firstn 5 (li_relationships sample_work)
      /\ (List.length relationships <= 5)%nat
      /\ dict_get "characters" sample_record = Some (VStr (Str.join ", " characters))
      /\ characters = firstn 10 (li_characters sample_work)
      /\ (List.length characters <= 10)%nat
      /\ dict_get "summary" sample_record = Some (VStr summary)
      /\ summary = match blockquote_summary sample_work with
                   | Some t => Str.take 200 t
                   | None => ""
                   end
      /\ (String.length summary <= 200)%nat.
Proof.
  split; [reflexivity|].
  apply (list_fields_capped sample_work "Sherlock" world0 sample_record).
  reflexivity.
Defined.

(** ** The item loop *)

Lemma same_but_prints_refl w : same_but_prints w w.
Proof. repeat split. Qed.

Lemma same_but_prints_trans w1 w2 w3 :
  same_but_prints w1 w2 -> same_but_prints w2 w3 -> same_but_prints w1 w3.
Proof. unfold same_but_prints. intros (?&?&?&?) (?&?&?&?). repeat split; congruence. Qed.

Lemma parse_items_cons w rest fandom works world :
  exists world',
    _parse_work_blurb w fandom world = (Returned (match parse_body w fandom with
                                                  | Returned r => r
                                                  | Raised _ => None
                                                  end), world')
    /\ same_but_prints world world'
    /\ parse_items (w :: rest) fandom works world
       = parse_items rest fandom (works ++ kept (parse_body w fandom)) world'.
Proof.
  destruct (parse_blurb_returns w fandom world) as (r & world' & Hr & Hsame).
  exists world'. cbn [parse_items]. unfold bind. rewrite Hr.
  destruct (parse_body w fandom) as [r'|e] eqn:Hbody.
  - rewrite (parse_blurb_returned _ _ _ _ Hbody) in Hr. injection Hr as <- <-.
    split; [reflexivity|]. split; [apply same_but_prints_refl|].
    destruct r' as [[|kv d]|]; cbn; rewrite ?app_nil_r; reflexivity.
  - rewrite (parse_blurb_raised _ _ _ _ Hbody) in Hr. injection Hr as <- <-.
    split; [reflexivity|]. split; [exact Hsame|].
    cbn. rewrite app_nil_r. reflexivity.
Qed.

(** The item loop always returns, with the records of the items appended
    to the accumulator; it only prints. *)
Lemma parse_items_spec work_items fandom : forall works world,
  exists world',
    parse_items work_items fandom works world
    = (Returned (works ++ page_records fandom work_items)%list, world')
    /\ same_but_prints world world'.
Proof.
  induction work_items as [|w rest IH]; intros works world.
  - exists world. cbn. rewrite app_nil_r. split; [reflexivity|apply same_but_prints_refl].
  - destruct (parse_items_cons w rest fandom works world) as (w1 & _ & Hsame & ->).
    destruct (IH (works ++ kept (parse_body w fandom))%list w1) as (w2 & -> & Hsame2).
    exists w2. cbn [page_records flat_map]. rewrite <- app_assoc.
    split; [reflexivity|]. eapply same_but_prints_trans; eassumption.
Qed.

Lemma page_records_app fandom l1 l2 :
  page_records fandom (l1 ++ l2) = (page_records fandom l1 ++ page_records fandom l2)%list.
Proof. unfold page_records. apply flat_map_app. Qed.

(** C7: an item without a heading, or whose heading has no link, or whose
    extraction raises, makes the extractor return None without raising;
    the accumulator is left as it was, and the items before and after it
    on the page are extracted as if it were not there. *)
Theorem unparseable_item_skipped w fandom :
  h4_heading w = None \/ h4_heading w = Some None
  \/ (exists e, parse_body w fandom = Raised e) ->
  forall world,
    (exists world', _parse_work_blurb w fandom world = (Returned None, world'))
    /\ (forall works, exists world',
           parse_items [w] fandom works world = (Returned works, world'))
    /\ (forall before after works, exists world',
           parse_items (before ++ w :: after) fandom works world
           = (Returned (works ++ page_records fandom before
                          ++ page_records fandom after)%list, world')).
Proof.
  intros H world.
  assert (Hbody : kept (parse_body w fandom) = []
                  /\ match parse_body w fandom with
                     | Returned r => r
                     | Raised _ => None
                     end = None).
  { unfold parse_body.
    destruct H as [H|[H|[e H]]].
    - rewrite H. split; reflexivity.
    - rewrite H. split; reflexivity.
    - unfold parse_body in H. rewrite H. split; reflexivity. }
  destruct Hbody as [Hkept Hnone].
  split; [|split].
  - destruct (parse_items_cons w [] fandom [] world) as (w1 & Hr & _).
    rewrite Hnone in Hr. exists w1. exact Hr.
  - intros works.
    destruct (parse_items_spec [w] fandom works world) as (w1 & Hr & _).
    exists w1. rewrite Hr. cbn. rewrite Hkept, !app_nil_r. reflexivity.
  - intros before after works.
    destruct (parse_items_spec (before ++ w :: after) fandom works world)
      as (w1 & Hr & _).
    exists w1. rewrite Hr. rewrite page_records_app. cbn [page_records flat_map].
    rewrite Hkept. reflexivity.
Qed.

Lemma unparseable_item_skipped_witness :
  (h4_heading no_href_work = None \/ h4_heading no_href_work = Some None
   \/ (exists e, parse_body no_href_work "Sherlock" = Raised e))
  /\ ((exists world', _parse_work_blurb no_href_work "Sherlock" world0
                      = (Returned None, world'))
      /\ (forall works, exists world',
             parse_items [no_href_work] "Sherlock" works world0 = (Returned works, world'))
      /\ (forall before after works, exists world',
             parse_items (before ++ no_href_work :: after) "Sherlock" works world0
             = (Returned (works ++ page_records "Sherlock" before
                            ++ page_records "Sherlock" after)%list, world'))).
Proof.
  assert (H : h4_heading no_href_work = None \/ h4_heading no_href_work = Some None
              \/ (exists e, parse_body no_href_work "Sherlock" = Raised e)).
  { right. right. exists KeyError. reflexivity. }
  split; [exact H|].
  exact (unparseable_item_skipped no_href_work "Sherlock" H world0).
Defined.

Example no_heading_skipped :
  _parse_work_blurb no_heading_work "Sherlock" world0 = (Returned None, world0).
Proof. reflexivity. Qed.

Example no_link_skipped :
  _parse_work_blurb no_link_work "Sherlock" world0 = (Returned None, world0).
Proof. reflexivity. Qed.

Example superscript_count_skipped :
  fst (_parse_work_blurb superscript_work "Sherlock" world0) = Returned None
  /\ trace (snd (_parse_work_blurb superscript_work "Sherlock" world0))
     = [Print (MsgErrorParsing ValueError)].
Proof. split; reflexivity. Qed.

(** ** The page loop *)

(** The three ways the body of the [try] can end. *)
Lemma scrape_page_cases self net fandom page works world :
  match respond net fandom page with
  | Failure =>
      exists world',
        scrape_page self net fandom page works world = (Raised RequestException, world')
        /\ after_request fandom page (latency net fandom page) world world'
  | Page work_items =>
      if rate_limit self <? 0
      then exists world',
          scrape_page self net fandom page works world = (Raised ValueError, world')
          /\ after_request fandom page (latency net fandom page) world world'
      else exists world',
          scrape_page self net fandom page works world
          = (Returned (works ++ page_records fandom work_items)%list, world')
          /\ after_request fandom page (latency net fandom page + rate_limit self)
               world world'
  end.
Proof.
  unfold scrape_page, bind, session_get.
  destruct (respond net fandom page) as [work_items|].
  - match goal with
    | |- context [parse_items work_items fandom works ?w1] =>
        destruct (parse_items_spec work_items fandom works w1)
          as (w2 & Hitems & Hnow & Hfiles & Hreq & Hinst)
    end.
    rewrite Hitems. unfold sleep.
    cbn in Hnow, Hfiles, Hreq, Hinst.
    rewrite requests_app in Hreq. rewrite dispatch_instants_app in Hinst.
    destruct (rate_limit self <? 0).
    + exists w2. split; [reflexivity|].
      unfold after_request. rewrite Hreq, Hinst, Hnow, Hfiles. repeat split.
    + eexists. split; [reflexivity|].
      unfold after_request. cbn.
      rewrite requests_app, dispatch_instants_app, Hreq, Hinst, Hnow, Hfiles.
      cbn. rewrite !app_nil_r. repeat split. lia.
  - eexists. split; [reflexivity|].
    unfold after_request. cbn. rewrite requests_app, dispatch_instants_app.
    repeat split.
Qed.

(** One turn of the page loop. *)
Lemma page_loop_cons self net fandom max_pages page rest works world :
  match respond net fandom page with
  | Failure =>
      exists world',
        page_loop self net fandom max_pages (page :: rest) works world
        = (Returned works, world')
        /\ after_request fandom page (latency net fandom page) world world'
        /\ exists t, trace world'
                     = (t ++ [Print (MsgErrorScraping page RequestException)])%list
  | Page work_items =>
      if rate_limit self <? 0
      then exists world',
          page_loop self net fandom max_pages (page :: rest) works world
          = (Raised ValueError, world')
          /\ after_request fandom page (latency net fandom page) world world'
      else exists world1,
          after_request fandom page (latency net fandom page + rate_limit self)
            world world1
          /\ page_loop self net fandom max_pages (page :: rest) works world
             = page_loop self net fandom max_pages rest
                 (works ++ page_records fandom work_items)%list world1
  end.
Proof.
  set (wp := {| now := now world;
                trace := trace world ++ [Print (MsgScraping fandom page max_pages)];
                files := files world |}).
  assert (Hpre : (do _ <- print (MsgScraping fandom page max_pages)
                  in scrape_page self net fandom page works) world
                 = scrape_page self net fandom page works wp) by reflexivity.
  cbn [page_loop]. rewrite Hpre. clear Hpre.
  pose proof (scrape_page_cases self net fandom page works wp) as Hcases.
  assert (Hwp : forall elapsed w', after_request fandom page elapsed wp w' ->
                                   after_request fandom page elapsed world w').
  { unfold after_request, wp. cbn. intros elapsed w'.
    rewrite requests_app, dispatch_instants_app. cbn. rewrite !app_nil_r. auto. }
  destruct (respond net fandom page) as [work_items|].
  - destruct (rate_limit self <? 0).
    + destruct Hcases as (w' & -> & Hafter). exists w'. split; [reflexivity|auto].
    + destruct Hcases as (w' & -> & Hafter). exists w'. split; [auto|reflexivity].
  - destruct Hcases as (w' & -> & Hafter). cbn.
    eexists. split; [reflexivity|]. split; [|eexists; reflexivity].
    apply Hwp in Hafter. unfold after_request in *. cbn.
    rewrite requests_app, dispatch_instants_app. cbn. rewrite !app_nil_r.
    exact Hafter.
Qed.

(** With a rate limit that is not negative the page loop returns: the
    records of the pages before the first failure are added to the
    accumulator, and the requests made are those pages and the failing one. *)
Lemma page_loop_spec self net fandom max_pages :
  0 <= rate_limit self ->
  forall pages works world,
  exists world',
    page_loop self net fandom max_pages pages works world
    = (Returned (works ++ pages_records net fandom (ok_prefix net fandom pages))%list,
       world')
    /\ files world' = files world
    /\ requests (trace world')
       = (requests (trace world) ++ map (pair fandom) (attempted net fandom pages))%list.
Proof.
  intros Hrl. apply Z.ltb_ge in Hrl.
  induction pages as [|page rest IH]; intros works world.
  - exists world. cbn. rewrite !app_nil_r. auto.
  - pose proof (page_loop_cons self net fandom max_pages page rest works world) as Hstep.
    cbn [ok_prefix attempted]. unfold succeeds, pages_records.
    destruct (respond net fandom page) as [work_items|] eqn:Hresp.
    + rewrite Hrl in Hstep. destruct Hstep as (w1 & (_ & Hfiles & Hreq & _) & ->).
      destruct (IH (works ++ page_records fandom work_items)%list w1)
        as (w2 & -> & Hfiles2 & Hreq2).
      exists w2. cbn [flat_map map]. unfold page_items at 1. rewrite Hresp.
      rewrite <- app_assoc. split; [reflexivity|]. split; [congruence|].
      rewrite Hreq2, Hreq, <- app_assoc. reflexivity.
    + destruct Hstep as (w1 & -> & (_ & Hfiles & Hreq & _) & _).
      exists w1. cbn. rewrite app_nil_r. auto.
Qed.

(** Whatever the rate limit, when the page loop returns it has only added
    records to the accumulator, and each comes from the extractor. *)
Lemma page_loop_records self net fandom max_pages (P : dict -> Prop) :
  (forall w d, parse_body w fandom = Returned (Some d) -> P d) ->
  forall pages works world recs world',
    page_loop self net fandom max_pages pages works world = (Returned recs, world') ->
    Forall P works -> Forall P recs.
Proof.
  intros HP. induction pages as [|page rest IH]; intros works world recs world'.
  - cbn. intros [= <- <-]. auto.
  - pose proof (page_loop_cons self net fandom max_pages page rest works world) as Hstep.
    destruct (respond net fandom page) as [work_items|].
    + destruct (rate_limit self <? 0).
      * destruct Hstep as (w1 & -> & _). discriminate.
      * destruct Hstep as (w1 & _ & ->). intros Hloop Hworks.
        eapply IH; [exact Hloop|].
        apply Forall_app. split; [assumption|].
        unfold page_records. apply Forall_flat_map, Forall_forall.
        intros w _. destruct (parse_body w fandom) as [[d|]|e] eqn:Hbody; cbn; auto.
        apply HP in Hbody. destruct d; auto.
    + destruct Hstep as (w1 & -> & _). intros [= <- <-]. auto.
Qed.

(** Whatever the rate limit and the answers, the requests of the loop are
    the first pages of its range, in order, and a failed fetch is never
    what leaves the loop. *)
Lemma page_loop_requests self net fandom max_pages : forall pages works world,
  exists n,
    (n <= List.length pages)%nat
    /\ requests (trace (snd (page_loop self net fandom max_pages pages works world)))
       = (requests (trace world) ++ map (pair fandom) (firstn n pages))%list
    /\ fst (page_loop self net fandom max_pages pages works world)
       <> Raised RequestException.
Proof.
  induction pages as [|page rest IH]; intros works world.
  - exists 0%nat. cbn. rewrite app_nil_r. repeat split; [lia|discriminate].
  - pose proof (page_loop_cons self net fandom max_pages page rest works world) as Hstep.
    destruct (respond net fandom page) as [work_items|].
    + destruct (rate_limit self <? 0).
      * destruct Hstep as (w1 & -> & (_ & _ & Hreq & _)).
        exists 1%nat. cbn. rewrite Hreq. repeat split; [lia|discriminate].
      * destruct Hstep as (w1 & (_ & _ & Hreq & _) & ->).
        destruct (IH (works ++ page_records fandom work_items)%list w1)
          as (n & Hn & Hreqs & Hfst).
        exists (S n). cbn [List.length firstn map]. rewrite Hreqs, Hreq, <- app_assoc.
        repeat split; [lia|exact Hfst].
    + destruct Hstep as (w1 & -> & (_ & _ & Hreq & _) & _).
      exists 1%nat. cbn. rewrite Hreq. repeat split; [lia|discriminate].
Qed.

Lemma ok_prefix_all net fandom pages :
  Forall (fun p => succeeds net fandom p = true) pages ->
  ok_prefix net fandom pages = pages /\ attempted net fandom pages = pages.
Proof.
  induction 1 as [|p rest Hp _ [IH1 IH2]]; cbn; [auto|].
  rewrite Hp, IH1, IH2. auto.
Qed.

Lemma ok_prefix_first_failure net fandom oks p rest :
  Forall (fun p => succeeds net fandom p = true) oks ->
  succeeds net fandom p = false ->
  ok_prefix net fandom (oks ++ p :: rest) = oks
  /\ attempted net fandom (oks ++ p :: rest) = (oks ++ [p])%list.
Proof.
  intros Hoks Hp. induction Hoks as [|q oks Hq _ [IH1 IH2]]; cbn.
  - rewrite Hp. auto.
  - rewrite Hq, IH1, IH2. auto.
Qed.

Lemma attempted_prefix net fandom pages :
  exists n, (n <= List.length pages)%nat /\ attempted net fandom pages = firstn n pages.
Proof.
  induction pages as [|p rest (n & Hn & IH)]; cbn.
  - exists 0%nat. auto.
  - destruct (succeeds net fandom p).
    + exists (S n). cbn. rewrite IH. split; [lia|reflexivity].
    + exists 1%nat. cbn. split; [lia|reflexivity].
Qed.

(** The failure that ends the loop is printed last. *)
Lemma page_loop_failure_logged self net fandom max_pages p rest :
  0 <= rate_limit self ->
  succeeds net fandom p = false ->
  forall oks, Forall (fun p => succeeds net fandom p = true) oks ->
  forall works world,
  exists t,
    trace (snd (page_loop self net fandom max_pages (oks ++ p :: rest) works world))
    = (t ++ [Print (MsgErrorScraping p RequestException)])%list.
Proof.
  intros Hrl Hp. apply Z.ltb_ge in Hrl. unfold succeeds in *.
  induction 1 as [|q oks Hq _ IH]; intros works world.
  - pose proof (page_loop_cons self net fandom max_pages p rest works world) as Hstep.
    destruct (respond net fandom p); [discriminate|].
    destruct Hstep as (w1 & Heq & _ & t & Ht). exists t.
    cbn [app]. rewrite Heq. exact Ht.
  - pose proof (page_loop_cons self net fandom max_pages q (oks ++ p :: rest) works world)
      as Hstep.
    destruct (respond net fandom q) as [work_items|]; [|discriminate].
    rewrite Hrl in Hstep. destruct Hstep as (w1 & _ & Heq).
    cbn [app]. rewrite Heq. apply IH.
Qed.

Lemma seq_split_at k m :
  (1 <= k <= m)%nat -> seq 1 m = (seq 1 (k - 1) ++ k :: seq (S k) (m - k))%list.
Proof.
  intros Hk. destruct k as [|k]; [lia|].
  replace (S k - 1)%nat with k by lia.
  replace m with (k + (1 + (m - S k)))%nat at 1 by lia.
  rewrite seq_app. reflexivity.
Qed.

Lemma seq_snoc_last k : (1 <= k)%nat -> seq 1 k = (seq 1 (k - 1) ++ [k])%list.
Proof.
  intros Hk. destruct k as [|k]; [lia|].
  replace (S k - 1)%nat with k by lia. apply seq_S.
Qed.

(** ** [search_fandom] *)

(** C2: for [max_pages >= 1], [search_fandom] requests pages 1, 2, ... in
    order and never more than [max_pages] of them, and a failed fetch never
    leaves it as an exception.  With a rate limit that [time.sleep] accepts
    it returns: when page [k] is the first whose fetch fails, the requests
    are exactly pages 1 to [k], the failure is printed last, and the result
    is the records of pages 1 to [k - 1]; when no fetch fails the result is
    the records of all [max_pages] pages. *)
Theorem search_fandom_stops_at_first_failure self net fandom max_pages world :
  1 <= max_pages ->
  (exists k,
      (k <= Z.to_nat max_pages)%nat
      /\ requests (trace (snd (search_fandom self net fandom max_pages world)))
         = (requests (trace world) ++ map (pair fandom) (seq 1 k))%list)
  /\ fst (search_fandom self net fandom max_pages world) <> Raised RequestException
  /\ (0 <= rate_limit self ->
      (exists recs, fst (search_fandom self net fandom max_pages world) = Returned recs)
      /\ (forall k,
             (1 <= k <= Z.to_nat max_pages)%nat ->
             (forall p, (1 <= p < k)%nat -> succeeds net fandom p = true) ->
             succeeds net fandom k = false ->
             exists world',
               search_fandom self net fandom max_pages world
               = (Returned (pages_records net fandom (seq 1 (k - 1))), world')
               /\ requests (trace world')
                  = (requests (trace world) ++ map (pair fandom) (seq 1 k))%list
               /\ exists t, trace world'
                            = (t ++ [Print (MsgErrorScraping k RequestException)])%list)
      /\ ((forall p, (1 <= p <= Z.to_nat max_pages)%nat ->
                     succeeds net fandom p = true) ->
          exists world',
            search_fandom self net fandom max_pages world
            = (Returned (pages_records net fandom (seq 1 (Z.to_nat max_pages))), world')
            /\ requests (trace world')
               = (requests (trace world)
                    ++ map (pair fandom) (seq 1 (Z.to_nat max_pages)))%list)).
Proof.
  intros Hmax. unfold search_fandom, page_range.
  set (m := Z.to_nat max_pages).
  split; [|split].
  - destruct (page_loop_requests self net fandom max_pages (seq 1 m) [] world)
      as (n & Hn & Hreq & _).
    rewrite length_seq in Hn. exists n. split; [exact Hn|].
    rewrite Hreq, take_seq. replace (Nat.min n m) with n by lia. reflexivity.
  - destruct (page_loop_requests self net fandom max_pages (seq 1 m) [] world)
      as (n & _ & _ & Hfst).
    exact Hfst.
  - intros Hrl.
    destruct (page_loop_spec self net fandom max_pages Hrl (seq 1 m) [] world)
      as (world' & Heq & _ & Hreq).
    split; [|split].
    + rewrite Heq. eexists. reflexivity.
    + intros k Hk Hoks Hfail.
      assert (Hforall : Forall (fun p => succeeds net fandom p = true) (seq 1 (k - 1))).
      { apply List.Forall_forall. intros p Hp. apply in_seq in Hp. apply Hoks. lia. }
      destruct (ok_prefix_first_failure net fandom _ k (seq (S k) (m - k)) Hforall Hfail)
        as [Hok Hatt].
      destruct (page_loop_failure_logged self net fandom max_pages k (seq (S k) (m - k))
                  Hrl Hfail _ Hforall [] world) as (t & Ht).
      rewrite <- (seq_split_at k m Hk) in Hok, Hatt, Ht.
      rewrite Heq in Ht. cbn [snd] in Ht.
      exists world'. rewrite Heq, Hok, Hreq, Hatt. cbn [app].
      rewrite <- seq_snoc_last by lia. split; [reflexivity|]. split; [reflexivity|].
      exists t. exact Ht.
    + intros Hall.
      assert (Hforall : Forall (fun p => succeeds net fandom p = true) (seq 1 m)).
      { apply List.Forall_forall. intros p Hp. apply in_seq in Hp. apply Hall. lia. }
      destruct (ok_prefix_all net fandom _ Hforall) as [Hok Hatt].
      exists world'. rewrite Heq, Hok, Hreq, Hatt. auto.
Qed.

Lemma search_fandom_stops_at_first_failure_witness :
  1 <= 3
  /\ fst (search_fandom default_scraper two_pages_then_failure "Sherlock" 3 world0)
     <> Raised RequestException
  /\ exists world',
      search_fandom default_scraper two_pages_then_failure "Sherlock" 3 world0
      = (Returned (pages_records two_pages_then_failure "Sherlock" [1; 2]%nat), world')
      /\ requests (trace world')
         = [("Sherlock", 1%nat); ("Sherlock", 2%nat); ("Sherlock", 3%nat)]
      /\ exists t, trace world'
                   = (t ++ [Print (MsgErrorScraping 3 RequestException)])%list.
Proof.
  assert (H1 : 1 <= 3) by lia.
  assert (H2 : 0 <= rate_limit default_scraper) by (cbn; lia).
  split; [exact H1|].
  destruct (search_fandom_stops_at_first_failure default_scraper two_pages_then_failure
              "Sherlock" 3 world0 H1) as (_ & Hnot & Hrun).
  split; [exact Hnot|].
  destruct (Hrun H2) as (_ & Hfirst & _).
  apply (Hfirst 3%nat).
  - cbn. lia.
  - intros p Hp. destruct p as [|[|[|p]]]; [lia|reflexivity|reflexivity|lia].
  - reflexivity.
Defined.

Example scenario_result :
  fst scenario_run = Returned [sample_record; sample_record]
  /\ requests (trace (snd scenario_run))
     = [("Sherlock", 1%nat); ("Sherlock", 2%nat); ("Sherlock", 3%nat)].
Proof. split; reflexivity. Qed.

(** A negative rate limit makes [time.sleep] raise after the first page
    that answers, and that exception does leave [search_fandom]. *)
Example negative_rate_limit_raises :
  fst (search_fandom {| rate_limit := -1 |} two_pages_then_failure "Sherlock" 3 world0)
  = Raised ValueError.
Proof. reflexivity. Qed.

(** C9: the extractor takes the value of fandom_searched from the driver
    and not from the item: it is the [fandom] it was called with, whatever
    the item.  So every record that one [search_fandom] call returns has
    the same fandom_searched, the search term of that call. *)
Theorem fandom_searched_is_search_term self net fandom max_pages world recs world' :
  search_fandom self net fandom max_pages world = (Returned recs, world') ->
  Forall (fun d => dict_get "fandom_searched" d = Some (VStr fandom)) recs
  /\ (forall w wd d,
         fst (_parse_work_blurb w fandom wd) = Returned (Some d) ->
         dict_get "fandom_searched" d = Some (VStr fandom)).
Proof.
  intros Hrun.
  assert (Hbody : forall w d, parse_body w fandom = Returned (Some d) ->
                              dict_get "fandom_searched" d = Some (VStr fandom)).
  { intros w d H. apply parse_body_extracted in H. destruct H; reflexivity. }
  split.
  - unfold search_fandom in Hrun.
    eapply page_loop_records; [exact Hbody|exact Hrun|constructor].
  - intros w wd d H. apply parse_blurb_Some in H. destruct H; reflexivity.
Qed.

Lemma fandom_searched_is_search_term_witness :
  search_fandom default_scraper two_pages_then_failure "Sherlock" 3 world0
  = (Returned scenario_records, snd scenario_run)
  /\ Forall (fun d => dict_get "fandom_searched" d = Some (VStr "Sherlock"))
       scenario_records
  /\ (forall w wd d,
         fst (_parse_work_blurb w "Sherlock" wd) = Returned (Some d) ->
         dict_get "fandom_searched" d = Some (VStr "Sherlock")).
Proof.
  assert (H : search_fandom default_scraper two_pages_then_failure "Sherlock" 3 world0
              = (Returned scenario_records, snd scenario_run)) by reflexivity.
  split; [exact H|].
  exact (fandom_searched_is_search_term default_scraper two_pages_then_failure
           "Sherlock" 3 world0 scenario_records (snd scenario_run) H).
Defined.

(** ** The rate limit *)

(** C1 fails in a run of [main] whose first request fails: nothing is
    slept after the failure, and the first request for the next fandom is
    dispatched as soon as the failure has been printed, 120 ms after the
    failed request instead of at least 5000 ms. *)
Theorem failed_fetch_is_not_followed_by_delay :
  firstn 8 (trace (snd (main first_fandom_down world0)))
  = [Print (MsgScrapingFandom "My Chemical Romance");
     Print (MsgScraping "My Chemical Romance" 1 3);
     Get "My Chemical Romance" 1 0;
     Print (MsgErrorScraping 1 RequestException);
     Print (MsgCollected 0 "My Chemical Romance");
     Print (MsgScrapingFandom "Fall Out Boy");
     Print (MsgScraping "Fall Out Boy" 1 3);
     Get "Fall Out Boy" 1 120]
  /\ spaced (rate_limit default_scraper)
       (dispatch_instants (trace (snd (main first_fandom_down world0)))) = false.
Proof. split; vm_compute; reflexivity. Qed.

Lemma spaced_cons d t instants :
  Forall (fun t' => t + d <= t') instants ->
  spaced d instants = true ->
  spaced d (t :: instants) = true.
Proof.
  intros Hall Hsp. destruct instants as [|t' rest]; [reflexivity|].
  inversion Hall; subst.
  change (spaced d (t :: t' :: rest))
    with ((t + d <=? t') && spaced d (t' :: rest)).
  apply andb_true_iff. split; [apply Z.leb_le; assumption|exact Hsp].
Qed.

(** Inside one [search_fandom] call the limit is kept: when requests take
    time (and never give it back), each request after the first is
    dispatched at least [rate_limit] after the one before. *)
Lemma page_loop_spaced self net fandom max_pages :
  0 <= rate_limit self ->
  (forall page, 0 <= latency net fandom page) ->
  forall pages works world,
  exists instants,
    dispatch_instants (trace (snd (page_loop self net fandom max_pages pages works world)))
    = (dispatch_instants (trace world) ++ instants)%list
    /\ spaced (rate_limit self) instants = true
    /\ Forall (fun t => now world <= t) instants.
Proof.
  intros Hrl Hlat. pose proof Hrl as Hrlb. apply Z.ltb_ge in Hrlb.
  induction pages as [|page rest IH]; intros works world.
  - exists []. cbn. rewrite app_nil_r. auto.
  - pose proof (page_loop_cons self net fandom max_pages page rest works world) as Hstep.
    destruct (respond net fandom page) as [work_items|].
    + rewrite Hrlb in Hstep. destruct Hstep as (w1 & (Hnow & _ & _ & Hinst) & ->).
      destruct (IH (works ++ page_records fandom work_items)%list w1)
        as (instants & -> & Hsp & Hall).
      exists (now world :: instants). rewrite Hinst, <- app_assoc.
      split; [reflexivity|].
      pose proof (Hlat page) as Hl.
      split.
      * apply spaced_cons; [|assumption].
        eapply Forall_impl; [exact Hall|]. cbn. intros t Ht. lia.
      * constructor; [lia|].
        eapply Forall_impl; [exact Hall|]. cbn. intros t Ht. lia.
    + destruct Hstep as (w1 & -> & (_ & _ & _ & Hinst) & _).
      exists [now world]. cbn [snd]. rewrite Hinst.
      split; [reflexivity|]. split; [reflexivity|].
      constructor; [lia|constructor].
Qed.

(** ** The CSV sink *)

Lemma dict_to_list_full d :
  dict_keys d = FIELDS -> dict_to_list FIELDS d = Returned (row_of d).
Proof.
  unfold dict_keys, FIELDS. intros H.
  repeat (destruct d as [|[? ?] d]; [discriminate H|];
          cbn [map fst] in H; injection H as -> H).
  destruct d; [|discriminate H].
  reflexivity.
Qed.

Lemma writerows_full data : forall rows,
  Forall (fun d => dict_keys d = FIELDS) data ->
  writerows FIELDS data rows = ((rows ++ map row_of data)%list, Returned tt).
Proof.
  induction data as [|d data IH]; intros rows Hall; cbn [writerows map].
  - rewrite app_nil_r. reflexivity.
  - inversion Hall as [|? ? Hd Hrest]; subst.
    rewrite (dict_to_list_full d Hd), (IH _ Hrest), <- app_assoc. reflexivity.
Qed.

(** C8, as stated, fails: given no record the sink does not fail, it
    prints "No data to save" and returns. *)
Lemma save_to_csv_empty_returns :
  save_to_csv default_scraper [] "data/ao3_fanfictions.csv" world0
  = (Returned tt, {| now := 0; trace := [Print MsgNoData]; files := ∅ |}).
Proof. reflexivity. Qed.

(** C8, amended: for a non-empty list of records that each carry the full
    field set, the sink leaves in the file a header row with the field
    names in the fixed order, then one row per record, in order, holding
    the record's values unchanged, and it returns; given no record it
    prints "No data to save" and returns without raising. *)
Theorem save_to_csv_header_and_rows self data filename world :
  data <> [] ->
  Forall (fun d => dict_keys d = FIELDS) data ->
  save_to_csv self data filename world
  = (Returned tt,
     {| now := now world;
        trace := trace world ++ [Print (MsgSaved (List.length data) filename)];
        files := <[filename := CsvFile (map CName FIELDS :: map row_of data)]>
                   (files world) |})
  /\ FIELDS = ["fandom_searched"; "title"; "work_id"; "author"; "rating"; "warnings";
               "category"; "fandoms"; "tags"; "relationships"; "characters";
               "language"; "words"; "chapters"; "kudos"; "bookmarks"; "hits";
               "summary"]
  /\ fst (save_to_csv self [] filename world) = Returned tt
  /\ trace (snd (save_to_csv self [] filename world))
     = (trace world ++ [Print MsgNoData])%list.
Proof.
  intros Hne Hall. split; [|repeat split].
  destruct data as [|first rest]; [congruence|].
  unfold save_to_csv.
  assert (Hfirst : dict_keys first = FIELDS) by (inversion Hall; assumption).
  rewrite Hfirst, (writerows_full _ _ Hall). reflexivity.
Qed.

Lemma save_to_csv_header_and_rows_witness :
  [sample_record; sample_record] <> []
  /\ Forall (fun d => dict_keys d = FIELDS) [sample_record; sample_record]
  /\ save_to_csv default_scraper [sample_record; sample_record] "out.csv" world0
     = (Returned tt,
        {| now := 0;
           trace := [Print (MsgSaved 2 "out.csv")];
           files := <["out.csv" := CsvFile [map CName FIELDS; row_of sample_record;
                                            row_of sample_record]]> ∅ |}).
Proof.
  assert (Hne : [sample_record; sample_record] <> []) by discriminate.
  assert (Hall : Forall (fun d => dict_keys d = FIELDS) [sample_record; sample_record])
    by (repeat constructor).
  split; [exact Hne|]. split; [exact Hall|].
  exact (proj1 (save_to_csv_header_and_rows default_scraper
                  [sample_record; sample_record] "out.csv" world0 Hne Hall)).
Defined.

(** The header is the key list of the first record: a record without the
    stats block in front gives a header of twelve names, and a later
    record with the block is then rejected. *)
Example header_follows_first_record :
  save_to_csv default_scraper [no_stats_record; sample_record] "out.csv" world0
  = (Raised ValueError,
     {| now := 0; trace := [];
        files := <["out.csv" := CsvFile [map CName (dict_keys no_stats_record);
                                         row_of no_stats_record]]> ∅ |}).
Proof. reflexivity. Qed.

(** Records extracted from items that have the stats block carry the full
    field set. *)
Lemma page_records_full fandom work_items :
  Forall (fun w => dl_stats w <> None) work_items ->
  Forall (fun d => dict_keys d = FIELDS) (page_records fandom work_items).
Proof.
  intros Hall. unfold page_records. apply Forall_flat_map.
  eapply Forall_impl; [exact Hall|]. cbn. intros w Hw.
  destruct (parse_body w fandom) as [[d|]|e] eqn:Hbody; cbn; auto.
  apply parse_body_extracted in Hbody.
  destruct (dl_stats w) as [st|] eqn:Hst; [|congruence].
  destruct (extracted_with_stats_fields _ _ _ _ Hbody Hst) as [Hkeys _].
  destruct d; auto.
Qed.

(** C10: given an empty list [save_to_csv] returns without raising; it
    prints one line and touches no file, so what is at the target path,
    or that nothing is there, stays as it was. *)
Theorem save_to_csv_empty_leaves_files self filename world :
  save_to_csv self [] filename world
  = (Returned tt,
     {| now := now world; trace := trace world ++ [Print MsgNoData];
        files := files world |})
  /\ files (snd (save_to_csv self [] filename world)) !! filename
     = files world !! filename.
Proof. split; reflexivity. Qed.

(** * Further properties *)

(** ** Which items give a record *)






(** ** Counts and decimal numerals *)







(** ** The shape of a record *)

(** A record has one of two field sets, each without repetition and in a
    fixed order: the full one when the item has a stats block, and the one
    without language, words, chapters, kudos, bookmarks and hits when it
    has none. *)
Theorem record_field_set w fandom world d :
  fst (_parse_work_blurb w fandom world) = Returned (Some d) ->
  List.NoDup (dict_keys d)
  /\ ((dl_stats w = None /\ dict_keys d = FIELDS_WITHOUT_STATS)
      \/ (dl_stats w <> None /\ dict_keys d = FIELDS)).
Proof.
  intros H. apply parse_blurb_Some in H.
  assert (Hfull : List.NoDup FIELDS /\ List.NoDup FIELDS_WITHOUT_STATS).
  { unfold FIELDS, FIELDS_WITHOUT_STATS.
    split;
      repeat (constructor;
              [cbn; intros Hin;
               repeat (destruct Hin as [Hin|Hin]; [discriminate Hin|]); exact Hin|]);
      constructor. }
  destruct Hfull as [Hfields Hwithout].
  destruct H as [a href work_id _ _ _ Hnone
                |a href work_id st words kudos bookmarks hits _ _ _ Hst _ _ _ _].
  - split; [exact Hwithout|]. left. split; [assumption|reflexivity].
  - split; [exact Hfields|]. right. split; [congruence|reflexivity].
Qed.

Lemma record_field_set_witness :
  fst (_parse_work_blurb no_stats_work "Sherlock" world0)
  = Returned (Some no_stats_record)
  /\ List.NoDup (dict_keys no_stats_record)
  /\ ((dl_stats no_stats_work = None
       /\ dict_keys no_stats_record = FIELDS_WITHOUT_STATS)
      \/ (dl_stats no_stats_work <> None /\ dict_keys no_stats_record = FIELDS)).
Proof.
  assert (H : fst (_parse_work_blurb no_stats_work "Sherlock" world0)
              = Returned (Some no_stats_record)) by reflexivity.
  split; [exact H|].
  exact (record_field_set no_stats_work "Sherlock" world0 no_stats_record H).
Defined.



(** ** The work id *)

Lemma no_char_app c s1 s2 :
  no_char c (s1 ++ s2) = no_char c s1 && no_char c s2.
Proof.
  unfold no_char. induction s1 as [|c1 s1 IH]; [reflexivity|].
  change (String c1 s1 ++ s2) with (String c1 (s1 ++ s2)). cbn [Str.forall_chars].
  rewrite IH, andb_assoc. reflexivity.
Qed.

Lemma no_char_after_separator c pre x : no_char c (pre ++ String c x) = false.
Proof.
  rewrite no_char_app. unfold no_char at 2. cbn [Str.forall_chars].
  rewrite Ascii.eqb_refl. cbn. apply andb_false_r.
Qed.

(** A text has one suffix only that follows a separator and holds none. *)
Lemma last_piece_unique c : forall pre1 pre2 x1 x2,
  pre1 ++ String c x1 = pre2 ++ String c x2 ->
  no_char c x1 = true -> no_char c x2 = true -> x1 = x2.
Proof.
  induction pre1 as [|c1 pre1 IH]; intros [|c2 pre2] x1 x2 Heq H1 H2.
  - change (String c x1 = String c x2) in Heq. congruence.
  - change (String c x1 = String c2 (pre2 ++ String c x2)) in Heq.
    injection Heq as _ ->. rewrite no_char_after_separator in H1. discriminate.
  - change (String c1 (pre1 ++ String c x1) = String c x2) in Heq.
    injection Heq as _ <-. rewrite no_char_after_separator in H2. discriminate.
  - change (String c1 (pre1 ++ String c x1) = String c2 (pre2 ++ String c x2)) in Heq.
    injection Heq as _ Heq. eapply IH; eassumption.
Qed.

Lemma extracted_work_id_shape w fandom d :
  extracted w fandom d ->
  exists a href work_id,
    h4_heading w = Some (Some a) /\ a_href a = Some href
    /\ dict_get "work_id" d = Some (VStr work_id)
    /\ no_char "/" work_id = true
    /\ (href = work_id \/ exists pre, href = pre ++ String "/" work_id).
Proof.
  assert (Hid : forall href work_id,
             getitem_last (Str.split "/" href) = Returned work_id ->
             no_char "/" work_id = true
             /\ (href = work_id \/ exists pre, href = pre ++ String "/" work_id)).
  { intros href work_id Hlast.
    destruct (split_last_piece "/" href) as (pieces & x & Hsplit & Hx & Hs).
    rewrite Hsplit, getitem_last_snoc in Hlast. injection Hlast as <-.
    split; [assumption|].
    destruct Hs as [[_ ->]|[_ [pre ->]]]; [left; reflexivity|right; eauto]. }
  intros [a href work_id Hh Hhref Hlast _
         |a href work_id st words kudos bookmarks hits Hh Hhref Hlast _ _ _ _ _];
    exists a, href, work_id; repeat (split; [first [assumption|reflexivity]|]);
    apply Hid; assumption.
Qed.

(** The work id of a link to [.../<id>] is [<id>]: when the href ends with a
    slash followed by a text without slash, that text is the work_id. *)
Theorem work_id_follows_last_slash w fandom world d a pre id :
  fst (_parse_work_blurb w fandom world) = Returned (Some d) ->
  h4_heading w = Some (Some a) ->
  a_href a = Some (pre ++ String "/" id) ->
  no_char "/" id = true ->
  dict_get "work_id" d = Some (VStr id).
Proof.
  intros H Hh Hhref Hid.
  destruct (extracted_work_id_shape w fandom d (parse_blurb_Some _ _ _ _ H))
    as (a' & href & work_id & Hh' & Hhref' & Hget & Hno & Hsuffix).
  assert (a' = a) as -> by congruence.
  assert (href = pre ++ String "/" id) as -> by congruence.
  rewrite Hget. do 2 f_equal.
  destruct Hsuffix as [Heq|[pre' Heq]].
  - rewrite <- Heq in Hno. rewrite no_char_after_separator in Hno. discriminate.
  - symmetry. eapply last_piece_unique; eassumption.
Qed.

Lemma work_id_follows_last_slash_witness :
  fst (_parse_work_blurb sample_work "Sherlock" world0) = Returned (Some sample_record)
  /\ h4_heading sample_work = Some (Some study_link)
  /\ a_href study_link = Some ("/works" ++ String "/" "100001")
  /\ no_char "/" "100001" = true
  /\ dict_get "work_id" sample_record = Some (VStr "100001").
Proof.
  assert (H1 : fst (_parse_work_blurb sample_work "Sherlock" world0)
               = Returned (Some sample_record)) by reflexivity.
  assert (H2 : h4_heading sample_work = Some (Some study_link)) by reflexivity.
  assert (H3 : a_href study_link = Some ("/works" ++ String "/" "100001"))
    by reflexivity.
  assert (H4 : no_char "/" "100001" = true) by reflexivity.
  repeat (split; [assumption|]).
  exact (work_id_follows_last_slash sample_work "Sherlock" world0 sample_record
           study_link "/works" "100001" H1 H2 H3 H4).
Defined.

(** ** Sleeping and the clock *)








(** Inside one [search_fandom] call the rate limit is a floor: when the
    limit is not negative and requests take time, every request after the
    first is dispatched at least [rate_limit] after the one before it. *)
Theorem search_fandom_requests_spaced self net fandom max_pages world :
  0 <= rate_limit self ->
  (forall page, 0 <= latency net fandom page) ->
  exists instants,
    dispatch_instants (trace (snd (search_fandom self net fandom max_pages world)))
    = (dispatch_instants (trace world) ++ instants)%list
    /\ spaced (rate_limit self) instants = true
    /\ Forall (fun t => now world <= t) instants.
Proof. intros Hrl Hlat. apply page_loop_spaced; assumption. Qed.

Lemma search_fandom_requests_spaced_witness :
  0 <= rate_limit default_scraper
  /\ (forall page, 0 <= latency two_pages_then_failure "Sherlock" page)
  /\ exists instants,
      dispatch_instants (trace (snd scenario_run)) = ([] ++ instants)%list
      /\ spaced 5000 instants = true
      /\ Forall (fun t => 0 <= t) instants.
Proof.
  assert (H1 : 0 <= rate_limit default_scraper) by (cbn; lia).
  assert (H2 : forall page, 0 <= latency two_pages_then_failure "Sherlock" page)
    by (intros page; cbn; lia).
  split; [exact H1|]. split; [exact H2|].
  exact (search_fandom_requests_spaced default_scraper two_pages_then_failure
           "Sherlock" 3 world0 H1 H2).
Defined.

(** ** The edges of [search_fandom] *)

(** With [max_pages] zero or negative the range is empty: no request, no
    print, no sleep, and the result is the empty list. *)
Theorem search_fandom_no_pages self net fandom max_pages world :
  max_pages <= 0 ->
  search_fandom self net fandom max_pages world = (Returned [], world).
Proof.
  intros H. unfold search_fandom, page_range.
  replace (Z.to_nat max_pages) with 0%nat by lia. reflexivity.
Qed.

Lemma search_fandom_no_pages_witness :
  -2 <= 0
  /\ search_fandom default_scraper two_pages_then_failure "Sherlock" (-2) world0
     = (Returned [], world0).
Proof.
  assert (H : -2 <= 0) by lia.
  split; [exact H|].
  exact (search_fandom_no_pages default_scraper two_pages_then_failure "Sherlock"
           (-2) world0 H).
Defined.



(** ** Several fandoms *)

Lemma search_fandom_result self net fandom max_pages world :
  0 <= rate_limit self ->
  exists world',
    search_fandom self net fandom max_pages world
    = (Returned (pages_records net fandom
                   (ok_prefix net fandom (page_range max_pages))), world')
    /\ files world' = files world
    /\ requests (trace world')
       = (requests (trace world)
            ++ map (pair fandom) (attempted net fandom (page_range max_pages)))%list.
Proof.
  intros Hrl. unfold search_fandom.
  exact (page_loop_spec self net fandom max_pages Hrl (page_range max_pages) [] world).
Qed.

(** The loop over the fandoms, by induction on their list. *)
Lemma scrape_fandoms_spec scraper net :
  0 <= rate_limit scraper ->
  forall names all_works world,
  exists world',
    scrape_fandoms scraper net names all_works world
    = (Returned (all_works ++ flat_map (fandom_records net) names)%list, world')
    /\ files world' = files world
    /\ requests (trace world')
       = (requests (trace world) ++ flat_map (fandom_requests net) names)%list.
Proof.
  intros Hrl. induction names as [|fandom rest IH]; intros all_works world.
  - exists world. cbn. rewrite !app_nil_r. auto.
  - cbn [scrape_fandoms]. unfold bind at 1. unfold print at 1. unfold emit.
    unfold bind at 1.
    match goal with
    | |- context [search_fandom scraper net fandom 3 ?w1] =>
        destruct (search_fandom_result scraper net fandom 3 w1 Hrl)
          as (w2 & -> & Hfiles & Hreq)
    end.
    unfold bind at 1. unfold print at 1. unfold emit.
    match goal with
    | |- context [scrape_fandoms scraper net rest ?ws ?w3] =>
        destruct (IH ws w3) as (w4 & -> & Hfiles4 & Hreq4)
    end.
    exists w4. cbn [flat_map]. rewrite <- app_assoc.
    split; [reflexivity|].
    cbn [files trace] in Hfiles4, Hreq4, Hfiles, Hreq.
    rewrite requests_app in Hreq4, Hreq. cbn in Hreq4, Hreq.
    rewrite app_nil_r in Hreq4, Hreq.
    split; [congruence|].
    rewrite Hreq4, Hreq, <- app_assoc. reflexivity.
Qed.

(** The loop over the fandoms goes through all of them, whatever fails:
    its result is the accumulator followed by what each fandom gave, in the
    order of the list, and what a fandom gives depends on the answers to
    its own requests only.  The requests are those of each fandom in turn,
    and no file is touched. *)
Theorem scrape_fandoms_concatenates scraper net :
  0 <= rate_limit scraper ->
  forall names all_works world,
  exists world',
    scrape_fandoms scraper net names all_works world
    = (Returned (all_works ++ flat_map (fandom_records net) names)%list, world')
    /\ files world' = files world
    /\ requests (trace world')
       = (requests (trace world) ++ flat_map (fandom_requests net) names)%list.
Proof. exact (scrape_fandoms_spec scraper net). Qed.

Lemma scrape_fandoms_concatenates_witness :
  0 <= rate_limit default_scraper
  /\ exists world',
      scrape_fandoms default_scraper first_fandom_down fandoms [] world0
      = (Returned ([] ++ flat_map (fandom_records first_fandom_down) fandoms)%list,
         world')
      /\ files world' = files world0
      /\ requests (trace world')
         = (requests (trace world0)
              ++ flat_map (fandom_requests first_fandom_down) fandoms)%list.
Proof.
  assert (H : 0 <= rate_limit default_scraper) by (cbn; lia).
  split; [exact H|].
  exact (scrape_fandoms_concatenates default_scraper first_fandom_down H fandoms []
           world0).
Defined.

(** ** The CSV sink on rows of different shapes *)

Lemma dict_to_list_cases fieldnames d :
  dict_to_list fieldnames d
  = if fits fieldnames d then Returned (padded_row fieldnames d) else Raised ValueError.
Proof.
  unfold dict_to_list, fits, padded_row.
  assert (H : forall l : list string,
             existsb (fun k => negb (existsb (String.eqb k) fieldnames)) l
             = negb (forallb (fun k => existsb (String.eqb k) fieldnames) l)).
  { induction l as [|k l IH]; cbn; [reflexivity|].
    rewrite IH, negb_andb. reflexivity. }
  rewrite H. destruct (forallb _ (dict_keys d)); reflexivity.
Qed.

Lemma fits_own_keys d : fits (dict_keys d) d = true.
Proof.
  unfold fits. apply forallb_forall. intros k Hk.
  apply existsb_exists. exists k. split; [assumption|apply String.eqb_refl].
Qed.

Lemma writerows_fitting fieldnames data : forall rows,
  Forall (fun d => fits fieldnames d = true) data ->
  writerows fieldnames data rows
  = ((rows ++ map (padded_row fieldnames) data)%list, Returned tt).
Proof.
  induction data as [|d data IH]; intros rows Hall; cbn [writerows map].
  - rewrite app_nil_r. reflexivity.
  - inversion Hall as [|? ? Hd Hrest]; subst.
    rewrite dict_to_list_cases, Hd, (IH _ Hrest), <- app_assoc. reflexivity.
Qed.

Lemma writerows_rejected fieldnames pre bad post : forall rows,
  Forall (fun d => fits fieldnames d = true) pre ->
  fits fieldnames bad = false ->
  writerows fieldnames (pre ++ bad :: post) rows
  = ((rows ++ map (padded_row fieldnames) pre)%list, Raised ValueError).
Proof.
  induction pre as [|d pre IH]; intros rows Hall Hbad; cbn [writerows map app].
  - rewrite dict_to_list_cases, Hbad, app_nil_r. reflexivity.
  - inversion Hall as [|? ? Hd Hrest]; subst.
    rewrite dict_to_list_cases, Hd, (IH _ Hrest Hbad), <- app_assoc. reflexivity.
Qed.

(** The header is the key list of the first record.  When every later
    record has its keys among them, each record gives one row in which a
    field the record lacks is left empty, and the sink returns. *)
Theorem save_to_csv_pads_missing_fields self first rest filename world :
  Forall (fun d => fits (dict_keys first) d = true) rest ->
  save_to_csv self (first :: rest) filename world
  = (Returned tt,
     {| now := now world;
        trace := trace world ++ [Print (MsgSaved (S (List.length rest)) filename)];
        files := <[filename := CsvFile (map CName (dict_keys first)
                                          :: map (padded_row (dict_keys first))
                                               (first :: rest))]>
                   (files world) |}).
Proof.
  intros Hrest. unfold save_to_csv.
  rewrite writerows_fitting
    by (constructor; [apply fits_own_keys|exact Hrest]).
  reflexivity.
Qed.

Lemma save_to_csv_pads_missing_fields_witness :
  Forall (fun d => fits (dict_keys sample_record) d = true) [no_stats_record]
  /\ save_to_csv default_scraper [sample_record; no_stats_record] "out.csv" world0
     = (Returned tt,
        {| now := 0;
           trace := [Print (MsgSaved 2 "out.csv")];
           files := <["out.csv" := CsvFile (map CName (dict_keys sample_record)
                                              :: map (padded_row (dict_keys sample_record))
                                                   [sample_record; no_stats_record])]>
                      ∅ |}).
Proof.
  assert (H : Forall (fun d => fits (dict_keys sample_record) d = true) [no_stats_record])
    by (repeat constructor).
  split; [exact H|].
  exact (save_to_csv_pads_missing_fields default_scraper sample_record [no_stats_record]
           "out.csv" world0 H).
Defined.

(** A record with a key that the first record does not have makes the
    sink raise ValueError: the file then holds the header and the rows of
    the records before it, and nothing is printed. *)
Theorem save_to_csv_rejects_extra_field self first pre bad post filename world :
  Forall (fun d => fits (dict_keys first) d = true) pre ->
  fits (dict_keys first) bad = false ->
  save_to_csv self (first :: pre ++ bad :: post) filename world
  = (Raised ValueError,
     {| now := now world;
        trace := trace world;
        files := <[filename := CsvFile (map CName (dict_keys first)
                                          :: map (padded_row (dict_keys first))
                                               (first :: pre))]>
                   (files world) |}).
Proof.
  intros Hpre Hbad. unfold save_to_csv.
  rewrite (writerows_rejected (dict_keys first) (first :: pre) bad post)
    by (try constructor; auto using fits_own_keys).
  reflexivity.
Qed.

Lemma save_to_csv_rejects_extra_field_witness :
  Forall (fun d => fits (dict_keys no_stats_record) d = true) [no_stats_record]
  /\ fits (dict_keys no_stats_record) sample_record = false
  /\ save_to_csv default_scraper
       (no_stats_record :: [no_stats_record] ++ sample_record :: [sample_record])
       "out.csv" world0
     = (Raised ValueError,
        {| now := 0;
           trace := [];
           files := <["out.csv" := CsvFile (map CName (dict_keys no_stats_record)
                                              :: map (padded_row (dict_keys no_stats_record))
                                                   [no_stats_record; no_stats_record])]>
                      ∅ |}).
Proof.
  assert (H1 : Forall (fun d => fits (dict_keys no_stats_record) d = true)
                 [no_stats_record]) by (repeat constructor).
  assert (H2 : fits (dict_keys no_stats_record) sample_record = false) by reflexivity.
  split; [exact H1|]. split; [exact H2|].
  exact (save_to_csv_rejects_extra_field default_scraper no_stats_record
           [no_stats_record] sample_record [sample_record] "out.csv" world0 H1 H2).
Defined.

(** ** [main] *)

Lemma csv_of_full_records self data filename world :
  data <> [] ->
  Forall (fun d => dict_keys d = FIELDS) data ->
  save_to_csv self data filename world
  = (Returned tt,
     {| now := now world;
        trace := trace world ++ [Print (MsgSaved (List.length data) filename)];
        files := <[filename := CsvFile (map CName FIELDS :: map row_of data)]>
                   (files world) |}).
Proof.
  intros Hne Hall. destruct data as [|first rest]; [congruence|].
  unfold save_to_csv.
  assert (Hfirst : dict_keys first = FIELDS) by (inversion Hall; assumption).
  rewrite Hfirst, (writerows_full _ _ Hall). reflexivity.
Qed.

Lemma main_after_scraping net world :
  exists world1,
    files world1 = files world
    /\ main net world
       = (do _ <- save_to_csv default_scraper (collected net) csv_path in
          do _ <- save_to_json default_scraper (collected net) json_path in
          print MsgComplete) world1.
Proof.
  assert (Hrl : 0 <= rate_limit default_scraper) by (cbn; lia).
  destruct (scrape_fandoms_spec default_scraper net Hrl fandoms [] world)
    as (w1 & Hrun & Hfiles & _).
  unfold main. unfold bind at 1. fold default_scraper. rewrite Hrun.
  unfold bind at 1. unfold print at 1. unfold emit.
  eexists. split; [|reflexivity]. exact Hfiles.
Qed.


Lemma csv_path_is_not_json_path : csv_path <> json_path.
Proof. discriminate. Qed.

(** A run of [main] that collected nothing. *)
Lemma main_empty_run net world :
  collected net = [] ->
  fst (main net world) = Returned tt
  /\ files (snd (main net world)) !! json_path = Some (JsonFile [])
  /\ files (snd (main net world)) !! csv_path = files world !! csv_path.
Proof.
  intros Hnone.
  destruct (main_after_scraping net world) as (w1 & Hfiles & ->).
  rewrite Hnone. cbn. rewrite Hfiles.
  split; [reflexivity|]. split.
  - apply lookup_insert_eq.
  - apply lookup_insert_ne. intros H. symmetry in H.
    exact (csv_path_is_not_json_path H).
Qed.



Lemma collected_full net :
  (forall fandom page work_items,
      respond net fandom page = Page work_items ->
      Forall (fun w => dl_stats w <> None) work_items) ->
  Forall (fun d => dict_keys d = FIELDS) (collected net).
Proof.
  intros Hstats. unfold collected, fandom_records, pages_records.
  apply Forall_flat_map, List.Forall_forall. intros fandom _.
  apply Forall_flat_map, List.Forall_forall. intros page _.
  apply page_records_full. unfold page_items.
  destruct (respond net fandom page) as [work_items|] eqn:Hresp; [|constructor].
  eapply Hstats. exact Hresp.
Qed.

(** A run of [main] whose records all carry the full field set. *)
Lemma main_full_run net world :
  (forall fandom page work_items,
      respond net fandom page = Page work_items ->
      Forall (fun w => dl_stats w <> None) work_items) ->
  collected net <> [] ->
  fst (main net world) = Returned tt
  /\ files (snd (main net world))
     = <[json_path := JsonFile (collected net)]>
         (<[csv_path := CsvFile (map CName FIELDS :: map row_of (collected net))]>
            (files world)).
Proof.
  intros Hstats Hne.
  destruct (main_after_scraping net world) as (w1 & Hfiles & ->).
  pose proof (collected_full net Hstats) as Hfull.
  assert (Hrun : exists t,
             (do _ <- save_to_csv default_scraper (collected net) csv_path in
              do _ <- save_to_json default_scraper (collected net) json_path in
              print MsgComplete) w1
             = (Returned tt,
                {| now := now w1;
                   trace := t;
                   files := <[json_path := JsonFile (collected net)]>
                              (<[csv_path := CsvFile (map CName FIELDS
                                                        :: map row_of (collected net))]>
                                 (files w1)) |})).
  { eexists. unfold bind at 1.
    rewrite (csv_of_full_records default_scraper (collected net) csv_path w1 Hne Hfull).
    reflexivity. }
  destruct Hrun as [t Hrun].
  rewrite Hrun. cbn [fst snd files]. rewrite Hfiles. split; reflexivity.
Qed.





(** ** The pipeline of [main.py] *)

(** Choice 3 with a scrape that collected nothing: the run writes no CSV
    file, so the analysis stage meets the data file of an earlier run, or
    none.  Without an earlier file the analysis is refused and the pipeline
    returns early; with one, the analyzer is run on that older file. *)
Theorem pipeline_analyses_older_file net analyze world :
  collected net = [] ->
  match files world !! csv_path with
  | None =>
      MainPy.main "3" net analyze world
      = (Returned tt, snd (main net world), [DataFileNotFound csv_path])
  | Some older =>
      MainPy.main "3" net analyze world
      = match analyze older with
        | Returned _ =>
            (Returned tt, snd (main net world),
             [AnalysisStarted older; PipelineComplete])
        | Raised e => (Raised e, snd (main net world), [AnalysisStarted older])
        end
  end.
Proof.
  intros Hnone.
  destruct (main_empty_run net world Hnone) as (Hfst & _ & Hcsv).
  assert (H13 : str_in "3" ["1"; "3"] = true) by reflexivity.
  assert (H23 : str_in "3" ["2"; "3"] = true) by reflexivity.
  unfold MainPy.main, analysis_stage. rewrite H13, H23.
  destruct (main net world) as [r w1] eqn:Hmain. cbn [fst snd] in *. subst r.
  rewrite Hcsv. destruct (files world !! csv_path) as [older|]; [|reflexivity].
  destruct (analyze older) as [[]|e]; reflexivity.
Qed.

Lemma pipeline_analyses_older_file_witness :
  collected no_answer = []
  /\ MainPy.main "3" no_answer analysis_succeeds world0
     = (Returned tt, snd (main no_answer world0), [DataFileNotFound csv_path]).
Proof.
  assert (H : collected no_answer = []) by reflexivity.
  split; [exact H|].
  exact (pipeline_analyses_older_file no_answer analysis_succeeds world0 H).
Defined.

(** Choice 3 with a scrape in which every item served has a stats block
    and something was collected: the analyzer is run on the CSV content
    this run has just written, whatever was at the path before. *)
Theorem pipeline_analyses_fresh_file net analyze world :
  (forall fandom page work_items,
      respond net fandom page = Page work_items ->
      Forall (fun w => dl_stats w <> None) work_items) ->
  collected net <> [] ->
  MainPy.main "3" net analyze world
  = match analyze (CsvFile (map CName FIELDS :: map row_of (collected net))) with
    | Returned _ =>
        (Returned tt, snd (main net world),
         [AnalysisStarted (CsvFile (map CName FIELDS :: map row_of (collected net)));
          PipelineComplete])
    | Raised e =>
        (Raised e, snd (main net world),
         [AnalysisStarted (CsvFile (map CName FIELDS :: map row_of (collected net)))])
    end.
Proof.
  intros Hstats Hne.
  destruct (main_full_run net world Hstats Hne) as (Hfst & Hfiles).
  assert (H13 : str_in "3" ["1"; "3"] = true) by reflexivity.
  assert (H23 : str_in "3" ["2"; "3"] = true) by reflexivity.
  unfold MainPy.main, analysis_stage. rewrite H13, H23.
  destruct (main net world) as [r w1] eqn:Hmain. cbn [fst snd] in *. subst r.
  rewrite Hfiles.
  rewrite lookup_insert_ne by (intros H; symmetry in H; exact (csv_path_is_not_json_path H)).
  rewrite lookup_insert_eq.
  destruct (analyze _) as [[]|e]; reflexivity.
Qed.

Lemma pipeline_analyses_fresh_file_witness :
  (forall fandom page work_items,
      respond first_fandom_down fandom page = Page work_items ->
      Forall (fun w => dl_stats w <> None) work_items)
  /\ collected first_fandom_down <> []
  /\ MainPy.main "3" first_fandom_down analysis_succeeds world0
     = (Returned tt, snd (main first_fandom_down world0),
        [AnalysisStarted
           (CsvFile (map CName FIELDS :: map row_of (collected first_fandom_down)));
         PipelineComplete]).
Proof.
  assert (H1 : forall fandom page work_items,
             respond first_fandom_down fandom page = Page work_items ->
             Forall (fun w => dl_stats w <> None) work_items).
  { intros fandom page work_items. cbn.
    destruct (String.eqb fandom "My Chemical Romance"); [discriminate|].
    intros [= <-]. repeat constructor. discriminate. }
  assert (H2 : collected first_fandom_down <> []) by discriminate.
  split; [exact H1|]. split; [exact H2|].
  exact (pipeline_analyses_fresh_file first_fandom_down analysis_succeeds world0 H1 H2).
Defined.
